(** * Crypto AI dashboard: the data-aggregation pipeline of [app.py]

    A shallow embedding of the Streamlit script [src/app.py]: the JSON values
    the three providers hand back, the Python operations the script applies
    to them (subscripting, slicing, truthiness, [format] with the
    [,.2f] / [.2f] / [,.0f] specifications, [+], [/ 2], [>]), the three
    fetch / analysis functions with their catch-all handlers, and the
    module-level rendering code.

    Numbers are Python's: [int] is [Z], [float] is IEEE 754 binary64
    (Rocq's primitive [float]).  Exceptions are values of [exn]; a
    computation that may raise has type [exc A]; a computation that also
    displays Streamlit elements or calls a provider has type [script A],
    which records those events in order.

    The pipeline ([App]) starts at line 94 with the three secrets in hand;
    the page set-up of lines 8-31 (configuration, title, the button, the
    reading of the secrets) is added around it in [Page].  [App] holds the
    two fetch functions as they are under their decorators, and [App.main]
    is the run in which both are executed; [Cache] adds the two
    [st.cache_data] decorators, under which a run is given the entries that
    are live and executes a fetch only when it has none.  A [str] is a Rocq [string], in which a
    character beyond ASCII takes several elements; only [len], slicing and
    iteration of a [str] could tell, and the script meets them only when a
    provider sends a string where a list is expected. *)

From Stdlib Require Import ZArith String Ascii List Floats Lia Bool.
From stdpp Require Import base option gmap strings list pretty.

Set Warnings "-register-all".

Open Scope string_scope.
Open Scope Z_scope.

(** ** Python values and exceptions *)

Module Py.

(** What [response.json()] can return. *)
Inductive value : Type :=
| VNone
| VBool (b : bool)
| VInt (z : Z)
| VFloat (f : float)
| VStr (s : string)
| VList (l : list value)
| VDict (d : gmap string value).

(** The subclasses of [Exception] that the modelled operations raise.  None
    of them is a bare [BaseException], so [except Exception] catches each. *)
Inductive exn_class : Type :=
| KeyError | TypeError | ValueError | IndexError | AttributeError
| OverflowError | JSONDecodeError | RequestException | APIError.

(** An exception with the text [str(e)] gives. *)
Record exn : Type := Exn { exn_cls : exn_class; exn_str : string }.

Definition exc (A : Type) : Type := result A exn.

Definition raise {A : Type} (c : exn_class) (msg : string) : exc A :=
  Error (Exn c msg).

#[export] Instance exc_ret : MRet exc := fun A a => Ok a.
#[export] Instance exc_bind : MBind exc := fun A B k m =>
  match m with
  | Ok a => k a
  | Error e => Error e
  end.
#[export] Instance exc_fmap : FMap exc := fun A B f m =>
  match m with
  | Ok a => Ok (f a)
  | Error e => Error e
  end.

(** The double-quote character, as a string. *)
Definition dquote : string := String (ascii_of_nat 34) EmptyString.

Definition type_name (v : value) : string :=
  match v with
  | VNone => "NoneType"
  | VBool _ => "bool"
  | VInt _ => "int"
  | VFloat _ => "float"
  | VStr _ => "str"
  | VList _ => "list"
  | VDict _ => "dict"
  end.

(** [bool(v)]: the truth value tested by [if prices:] and [if news:]. *)
Definition truthy (v : value) : bool :=
  match v with
  | VNone => false
  | VBool b => b
  | VInt z => negb (z =? 0)
  | VFloat f => negb (f =? 0)%float
  | VStr s => negb (String.eqb s EmptyString)
  | VList l => match l with [] => false | _ => true end
  | VDict d => match map_to_list d with [] => false | _ => true end
  end.

(** [v[k]] for a string key [k]. *)
Definition subscript (v : value) (k : string) : exc value :=
  match v with
  | VDict d =>
      match d !! k with
      | Some x => Ok x
      | None => raise KeyError ("'" ++ k ++ "'")
      end
  | VList _ => raise TypeError "list indices must be integers or slices, not str"
  | VStr _ => raise TypeError "string indices must be integers, not 'str'"
  | _ => raise TypeError ("'" ++ type_name v ++ "' object is not subscriptable")
  end.

(** [v[:n]].  Slicing a dict raises ([TypeError] up to Python 3.11, where a
    slice is unhashable). *)
Definition slice_to (n : nat) (v : value) : exc value :=
  match v with
  | VList l => Ok (VList (take n l))
  | VStr s => Ok (VStr (substring 0 n s))
  | VDict _ => raise TypeError "unhashable type: 'slice'"
  | _ => raise TypeError ("'" ++ type_name v ++ "' object is not subscriptable")
  end.

(** The items a [for] loop or a comprehension visits.  A string yields its
    characters; a dict yields its keys (the model keeps no insertion
    order; the script only ever iterates over a list or a string). *)
Definition iterate (v : value) : exc (list value) :=
  match v with
  | VList l => Ok l
  | VStr s => Ok ((fun c => VStr (String c EmptyString)) <$> list_ascii_of_string s)
  | VDict d => Ok (VStr <$> (map_to_list d).*1)
  | _ => raise TypeError ("'" ++ type_name v ++ "' object is not iterable")
  end.

(** [v.get(k, default)]: only a dict has the method. *)
Definition dict_get (v : value) (k : string) (default : value) : exc value :=
  match v with
  | VDict d => Ok (from_option id default (d !! k))
  | _ => raise AttributeError ("'" ++ type_name v ++ "' object has no attribute 'get'")
  end.

(** [str(v)], which an f-string field without a format specification
    applies.  [repr] stands for Python's text of a float, a list or a dict
    (the shortest digits that round-trip, quoting and escaping), which the
    model leaves open. *)
Definition str (repr : value → string) (v : value) : string :=
  match v with
  | VNone => "None"
  | VBool b => if b then "True" else "False"
  | VInt z => pretty z
  | VStr s => s
  | _ => repr v
  end.

(** [len(v)] where it is defined. *)
Definition len (v : value) : option nat :=
  match v with
  | VList l => Some (length l)
  | VStr s => Some (String.length s)
  | VDict d => Some (size d)
  | _ => None
  end.

(** *** Numbers *)

(** A Python number: [bool] is a subclass of [int]. *)
Inductive number : Type :=
| NInt (z : Z)
| NFloat (f : float).

Definition as_number (v : value) : option number :=
  match v with
  | VBool b => Some (NInt (if b then 1 else 0))
  | VInt z => Some (NInt z)
  | VFloat f => Some (NFloat f)
  | _ => None
  end.

(** The binary64 nearest to [z * 2^e], ties to even. *)
Definition nearest_float (z e : Z) : float :=
  SF2Prim (binary_normalize prec emax z e false).

(** [float(z)]; an [int] beyond the range of binary64 raises. *)
Definition float_of_int (z : Z) : exc float :=
  let f := nearest_float z 0 in
  if is_infinity f then raise OverflowError "int too large to convert to float"
  else Ok f.

(** [float(n)]. *)
Definition float_of_number (n : number) : exc float :=
  match n with
  | NInt z => float_of_int z
  | NFloat f => Ok f
  end.

(** [a + b]: two ints add exactly; with a float on either side the other
    operand is converted first. *)
Definition add (a b : value) : exc value :=
  match as_number a, as_number b with
  | Some (NInt x), Some (NInt y) => Ok (VInt (x + y))
  | Some x, Some y =>
      x' ← float_of_number x;
      y' ← float_of_number y;
      Ok (VFloat (x' + y')%float)
  | _, _ =>
      match a, b with
      | VStr s, VStr t => Ok (VStr (s ++ t))
      | VStr _, _ =>
          raise TypeError ("can only concatenate str (not " ++ dquote ++ type_name b
                           ++ dquote ++ ") to str")
      | VList l, VList m => Ok (VList (l ++ m)%list)
      | VList _, _ =>
          raise TypeError ("can only concatenate list (not " ++ dquote ++ type_name b
                           ++ dquote ++ ") to list")
      | _, _ =>
          raise TypeError ("unsupported operand type(s) for +: '" ++ type_name a
                           ++ "' and '" ++ type_name b ++ "'")
      end
  end.

(** [v / 2], a float whatever the number [v] is.  True division of an
    [int] is correctly rounded and raises when the quotient is beyond the
    range of binary64. *)
Definition truediv_2 (v : value) : exc float :=
  match as_number v with
  | Some (NInt z) =>
      let f := nearest_float z (-1) in
      if is_infinity f
      then raise OverflowError "integer division result too large for a float"
      else Ok f
  | Some (NFloat x) => Ok (x / 2)%float
  | None =>
      raise TypeError ("unsupported operand type(s) for /: '" ++ type_name v
                       ++ "' and 'int'")
  end.

(** [x > k] for a float [x] and an [int] literal [k] of the script (2, 0
    and -2).  Python compares a float with an int by value; such a [k] is
    a binary64, so this is the comparison of floats. *)
Definition gt_int (x : float) (k : Z) : bool :=
  (nearest_float k 0 <? x)%float.

(** *** Formatting *)

(** The format specifications of the script: [,.2f], [.2f] and [,.0f]. *)
Record format_spec : Type := FixedPoint { grouping : bool; precision : nat }.

(** [n / d] rounded to the nearest integer, ties to even ([d > 0]). *)
Definition round_half_even (n d : Z) : Z :=
  let q := n / d in
  match 2 * (n mod d) ?= d with
  | Lt => q
  | Gt => q + 1
  | Eq => if Z.even q then q else q + 1
  end.

(** [m * 2^e * 10^p], correctly rounded to an integer. *)
Definition scaled (p : nat) (m : positive) (e : Z) : Z :=
  if 0 <=? e then Z.pos m * 2 ^ e * 10 ^ Z.of_nat p
  else round_half_even (Z.pos m * 10 ^ Z.of_nat p) (2 ^ (- e)).

(** Digits, least significant first, with a comma after every third. *)
Fixpoint commas_rev (l : list ascii) (k : nat) : list ascii :=
  match l with
  | [] => []
  | c :: l' =>
      match k with
      | 3%nat => ","%char :: c :: commas_rev l' 1
      | _ => c :: commas_rev l' (S k)
      end
  end.

Definition group_thousands (s : string) : string :=
  string_of_list_ascii (rev (commas_rev (rev (list_ascii_of_string s)) 0)).

(** [n] in decimal on [p] digits, zero-padded on the left ([0 <= n < 10^p]). *)
Fixpoint fraction_digits (p : nat) (n : Z) : string :=
  match p with
  | O => EmptyString
  | S p' =>
      fraction_digits p' (n / 10) ++
      String (ascii_of_nat (48 + Z.to_nat (n mod 10))) EmptyString
  end.

Definition sign_text (negative : bool) : string :=
  if negative then "-" else EmptyString.

(** The digits of a non-negative number of hundredths (for [p = 2]). *)
Definition fixed_text (spec : format_spec) (n : Z) : string :=
  let unit := 10 ^ Z.of_nat (precision spec) in
  let whole := pretty (Z.to_N (n / unit)) in
  (if grouping spec then group_thousands whole else whole) ++
  match precision spec with
  | O => EmptyString
  | p => "." ++ fraction_digits p (n mod unit)
  end.

(** [format(f, spec)] for a float. *)
Definition format_float (spec : format_spec) (f : float) : string :=
  match Prim2SF f with
  | S754_nan => "nan"
  | S754_infinity s => sign_text s ++ "inf"
  | S754_zero s => sign_text s ++ fixed_text spec 0
  | S754_finite s m e => sign_text s ++ fixed_text spec (scaled (precision spec) m e)
  end.

(** [format(v, spec)]: an [int] is converted to [float] first; anything
    that is not a number raises. *)
Definition format (spec : format_spec) (v : value) : exc string :=
  match as_number v with
  | Some n => f ← float_of_number n; Ok (format_float spec f)
  | None =>
      match v with
      | VStr _ => raise ValueError "Unknown format code 'f' for object of type 'str'"
      | _ =>
          raise TypeError ("unsupported format string passed to " ++ type_name v
                           ++ ".__format__")
      end
  end.

(** A number whose value as a float is finite: what the specification
    calls a decimal. *)
Definition finite_number (v : value) : bool :=
  match as_number v with
  | Some n =>
      match float_of_number n with
      | Ok f => is_finite f
      | Error _ => false
      end
  | None => false
  end.

(** A decimal digit. *)
Definition is_digit (c : ascii) : bool :=
  ((48 <=? nat_of_ascii c)%nat && (nat_of_ascii c <=? 57)%nat)%bool.

End Py.

(** ** Streamlit and the providers *)

Module St.
Import Py.

(** What the script puts on the page. *)
Inductive element : Type :=
| st_spinner (text : string)
| st_columns (n : nat)
| st_metric (label value delta : string)
| st_markdown (body : string)
| st_subheader (body : string)
| st_write (body : string)
| st_caption (body : string)
| st_container
| st_info (body : string)
| st_error (body : string).

(** [requests.get(url, params=..., headers=...)]. *)
Record http_request : Type := HttpRequest {
  url : string;
  params : list (string * string);
  headers : list (string * string)
}.

(** A [requests.Response]: its status and what [.json()] yields (it raises
    when the body is not JSON).  The source never reads the status. *)
Record response : Type := Response { status_code : Z; json : exc value }.

(** The arguments of [client.messages.create]. *)
Record create_params : Type := CreateParams {
  model : string;
  max_tokens : Z;
  messages : list (string * string)  (* role, content *)
}.

(** A block of [message.content]: only a text block has [.text]. *)
Inductive content_block : Type :=
| TextBlock (text : string)
| OtherBlock (class_name : string).

Record message : Type := Message { content : list content_block }.

(** One thing a run does that can be observed from outside. *)
Inductive event : Type :=
| Show (e : element)
| HttpGet (r : http_request)
| MessagesCreate (api_key : string) (p : create_params).

(** A computation that shows elements and calls providers, and returns or
    raises. *)
Definition script (A : Type) : Type := list event * exc A.

#[export] Instance script_ret : MRet script := fun A a => ([], Ok a).
#[export] Instance script_bind : MBind script := fun A B k m =>
  match m with
  | (t, Ok a) => let '(t', r) := k a in ((t ++ t')%list, r)
  | (t, Error e) => (t, Error e)
  end.

Definition eval {A : Type} (x : exc A) : script A := ([], x).
Definition show (e : element) : script unit := ([Show e], Ok tt).

(** [try: body except Exception as e: handler e]. *)
Definition try_except {A : Type} (body : script A) (handler : exn → script A)
  : script A :=
  match body with
  | (t, Ok a) => (t, Ok a)
  | (t, Error e) => let '(t', r) := handler e in ((t ++ t')%list, r)
  end.

(** [for x in l: body x]. *)
Fixpoint for_each {A : Type} (l : list A) (body : A → script unit) : script unit :=
  match l with
  | [] => mret tt
  | x :: l' => body x;; for_each l' body
  end.

Definition trace {A : Type} (m : script A) : list event := m.1.
Definition outcome {A : Type} (m : script A) : exc A := m.2.

End St.

(** ** The script *)

Module App.
Import Py St.

(** Line feed, [chr(10)]. *)
Definition nl : string := String (ascii_of_nat 10) EmptyString.

(** What a run depends on: the three secrets, the two network libraries and
    Python's [repr]. *)
Record env : Type := Env {
  COINGECKO_KEY : string;
  CRYPTOPANIC_KEY : string;
  ANTHROPIC_KEY : string;
  requests_get : http_request → exc response;
  messages_create : string → create_params → exc message;
  repr : value → string
}.

(** The sentiment of lines 123-130, on the average of line 122 (a float,
    being the result of a true division). *)
Definition sentiment (avg_change : float) : string :=
  if gt_int avg_change 2 then "Greed 😎"
  else if gt_int avg_change 0 then "Optimistic 🙂"
  else if gt_int avg_change (-2) then "Cautious 😐"
  else "Fear 😰".

(** Line 122: [(btc_change + eth_change) / 2]. *)
Definition avg_change (btc_change eth_change : value) : exc float :=
  total ← add btc_change eth_change;
  truediv_2 total.

(** Lines 122-130 as one function of the two 24h changes. *)
Definition market_sentiment (btc_change eth_change : value) : exc string :=
  sentiment <$> avg_change btc_change eth_change.

Definition comma_2f : format_spec := FixedPoint true 2.
Definition plain_2f : format_spec := FixedPoint false 2.
Definition comma_0f : format_spec := FixedPoint true 0.

(** The fixed instruction that ends the prompt (lines 76-81). *)
Definition instruction : string :=
  "Provide a concise analysis in 3-4 sentences covering:" ++ nl
  ++ "1. Key market movements" ++ nl
  ++ "2. Notable trends" ++ nl
  ++ "3. What to watch for" ++ nl
  ++ nl
  ++ "Be objective and data-driven.".

(** The text of the f-string of lines 67-81 around its fields. *)
Definition prompt_text (btc_usd btc_change eth_usd eth_change : string)
    (headlines : list string) : string :=
  "Analyze this cryptocurrency market data and provide a brief summary:" ++ nl
  ++ nl
  ++ "Price Data:" ++ nl
  ++ "- Bitcoin: $" ++ btc_usd ++ " (24h change: " ++ btc_change ++ "%)" ++ nl
  ++ "- Ethereum: $" ++ eth_usd ++ " (24h change: " ++ eth_change ++ "%)" ++ nl
  ++ nl
  ++ "Recent News Headlines:" ++ nl
  ++ String.concat nl headlines ++ nl
  ++ nl
  ++ instruction.

(** [message.content[0].text]. *)
Definition first_text (m : message) : exc string :=
  match content m with
  | [] => raise IndexError "list index out of range"
  | TextBlock text :: _ => Ok text
  | OtherBlock c :: _ =>
      raise AttributeError ("'" ++ c ++ "' object has no attribute 'text'")
  end.

Definition fallback (e : exn) : string :=
  "Unable to generate AI analysis: " ++ exn_str e.

(** Lines 56-57: the first five posts of a response. *)
Definition top_five (response : St.response) : exc value :=
  data ← json response;
  results ← dict_get data "results" (VList []);
  slice_to 5 results.

(** One numeric field of an f-string, [{data[asset][field]:spec}]. *)
Definition figure (data : value) (asset field : string) (spec : format_spec)
  : exc string :=
  quote ← subscript data asset;
  number ← subscript quote field;
  format spec number.

Section Run.

Context (w : env).

Definition http_get (r : http_request) : script response :=
  ([HttpGet r], requests_get w r).

Definition create (p : create_params) : script message :=
  ([MessagesCreate (ANTHROPIC_KEY w) p], messages_create w (ANTHROPIC_KEY w) p).

(** Lines 37-44: the request for the two quotes. *)
Definition prices_request : http_request :=
  {| url := "https://api.coingecko.com/api/v3/simple/price";
     params := [("ids", "bitcoin,ethereum"); ("vs_currencies", "usd");
                ("include_24hr_change", "true")];
     headers := [("x-cg-demo-api-key", COINGECKO_KEY w)] |}.

(** Lines 37-45: the body of the [try]. *)
Definition fetch_prices : script value :=
  response ← http_get prices_request;
  eval (json response).

(** Lines 35-48: the function under the decorator of line 34, which is
    [Cache.cache_data]. *)
Definition get_crypto_prices : script value :=
  try_except fetch_prices
    (fun e =>
       show (st_error ("Error fetching prices: " ++ exn_str e));;
       mret VNone).

(** Lines 54-55: the request for the posts. *)
Definition news_request : http_request :=
  {| url := "https://cryptopanic.com/api/v1/posts/?auth_token="
            ++ CRYPTOPANIC_KEY w ++ "&public=true";
     params := [];
     headers := [] |}.

(** Lines 54-57: the body of the [try]. *)
Definition fetch_news : script value :=
  response ← http_get news_request;
  eval (top_five response).

(** Lines 52-60: the function under the decorator of line 51, which is
    [Cache.cache_data]. *)
Definition get_crypto_news : script value :=
  try_except fetch_news
    (fun e =>
       show (st_error ("Error fetching news: " ++ exn_str e));;
       mret (VList [])).

(** One line of the headline block: [f"- {news['title']}"]. *)
Definition headline (news : value) : exc string :=
  title ← subscript news "title";
  Ok ("- " ++ str (repr w) title).

(** The f-string of lines 67-81, its fields evaluated from left to right. *)
Definition build_prompt (price_data news_data : value) : exc string :=
  btc_usd ← figure price_data "bitcoin" "usd" comma_2f;
  btc_change ← figure price_data "bitcoin" "usd_24h_change" plain_2f;
  eth_usd ← figure price_data "ethereum" "usd" comma_2f;
  eth_change ← figure price_data "ethereum" "usd_24h_change" plain_2f;
  first ← slice_to 3 news_data;
  items ← iterate first;
  headlines ← mapM headline items;
  Ok (prompt_text btc_usd btc_change eth_usd eth_change headlines).

(** Lines 83-87: the arguments of the one call to the text generator. *)
Definition analysis_params (prompt : string) : create_params :=
  {| model := "claude-sonnet-4-20250514";
     max_tokens := 500;
     messages := [("user", prompt)] |}.

(** Lines 65-89: the body of the [try].  Building the client calls
    nothing. *)
Definition request_analysis (price_data news_data : value) : script string :=
  prompt ← eval (build_prompt price_data news_data);
  message ← create (analysis_params prompt);
  eval (first_text message).

(** Lines 63-91. *)
Definition get_ai_analysis (price_data news_data : value) : script string :=
  try_except (request_analysis price_data news_data)
    (fun e => mret (fallback e)).

(** Lines 102-109 and 111-118: one price card; returns the 24h change. *)
Definition price_card (prices : value) (asset label : string) : script value :=
  change ← eval (quote ← subscript prices asset; subscript quote "usd_24h_change");
  usd ← eval (figure prices asset "usd" comma_0f);
  delta ← eval (format plain_2f change);
  show (st_metric label ("$" ++ usd) (delta ++ "%"));;
  mret change.

(** Lines 147-151: one news item. *)
Definition news_item (item : value) : script unit :=
  show st_container;;
  title ← eval (subscript item "title");
  show (st_markdown ("**" ++ str (repr w) title ++ "**"));;
  source ← eval (source ← subscript item "source"; subscript source "title");
  published_at ← eval (subscript item "published_at");
  show (st_caption (str (repr w) source ++ " • " ++ str (repr w) published_at));;
  show (st_markdown "---").

(** Lines 146-153: the news section. *)
Definition news_section (news : value) : script unit :=
  if truthy news then
    items ← eval (iterate news);
    for_each items news_item
  else show (st_info "No news available at the moment.").

(** Lines 99-153: the branch taken when [prices] is truthy. *)
Definition render (prices news : value) : script unit :=
  show (st_columns 4);;
  btc_change ← price_card prices "bitcoin" "Bitcoin (BTC)";
  eth_change ← price_card prices "ethereum" "Ethereum (ETH)";
  avg ← eval (avg_change btc_change eth_change);
  delta ← eval (format plain_2f (VFloat avg));
  show (st_metric "Market Sentiment" (sentiment avg) (delta ++ "%"));;
  show (st_markdown "---");;
  show (st_subheader "🧠 AI Market Analysis");;
  show (st_spinner "Generating AI analysis...");;
  analysis ← get_ai_analysis prices news;
  show (st_write analysis);;
  show (st_markdown "---");;
  show (st_subheader "📰 Latest Crypto News");;
  news_section news.

(** Line 156: the one element of the other branch. *)
Definition top_level_error : element :=
  st_error "Unable to fetch cryptocurrency data. Please check your API keys.".

(** Lines 159-160. *)
Definition footer : list event :=
  [Show (st_markdown "---");
   Show (st_caption
     "Data provided by CoinGecko • News from CryptoPanic • AI Analysis by Claude")].

(** Lines 98-160: what is shown once both fetches have returned. *)
Definition present (prices news : value) : script unit :=
  (if truthy prices then render prices news else show top_level_error);;
  (footer, Ok tt).

(** Lines 94-160: the pipeline and the footer, both fetches executed
    (nothing live in the cache; [Cache.run] is the general case). *)
Definition main : script unit :=
  show (st_spinner "Fetching latest data...");;
  prices ← get_crypto_prices;
  news ← get_crypto_news;
  present prices news.

End Run.

End App.

(** ** The data model and the sentiment deriver as the specification words them *)

Module Spec.
Import Py.

Inductive SentimentLabel : Type := Fear | Cautious | Optimistic | Greed.

(** The order in which a rising average moves the label. *)
Definition rank (l : SentimentLabel) : nat :=
  match l with
  | Fear => 0
  | Cautious => 1
  | Optimistic => 2
  | Greed => 3
  end.

(** The thresholds, in the order in which they are tried. *)
Definition thresholds : list (float * SentimentLabel) :=
  [(2%float, Greed); (0%float, Optimistic); ((-2)%float, Cautious)].

(** First threshold that the average exceeds wins; otherwise Fear. *)
Definition derive (avg : float) : SentimentLabel :=
  match List.find (fun '(t, _) => (t <? avg)%float) thresholds with
  | Some (_, l) => l
  | None => Fear
  end.

(** A quote of the data model: a finite price and a finite 24h change,
    the change a float. *)
Definition well_formed_quote (q : value) : Prop :=
  ∃ (m : gmap string value) (usd : value) (change : float),
    q = VDict m
    ∧ m !! "usd" = Some usd ∧ finite_number usd = true
    ∧ m !! "usd_24h_change" = Some (VFloat change) ∧ is_finite change = true.

(** A quotes mapping of the data model: it has both tracked assets. *)
Definition well_formed_quotes (prices : value) : Prop :=
  ∃ (d : gmap string value) (btc eth : value),
    prices = VDict d
    ∧ d !! "bitcoin" = Some btc ∧ well_formed_quote btc
    ∧ d !! "ethereum" = Some eth ∧ well_formed_quote eth.

(** The text under which the dashboard shows a label. *)
Definition label_text (l : SentimentLabel) : string :=
  match l with
  | Greed => "Greed 😎"
  | Optimistic => "Optimistic 🙂"
  | Cautious => "Cautious 😐"
  | Fear => "Fear 😰"
  end.

End Spec.

(** ** Sample providers *)

Module Examples.
Import Py St App.

Definition quote (usd change : value) : value :=
  VDict {[ "usd" := usd; "usd_24h_change" := change ]}.

(** A price response with both assets; the second price is a JSON
    integer. *)
Definition quotes : value :=
  VDict {[ "bitcoin" := quote (VFloat 67000.5) (VFloat 2.5);
           "ethereum" := quote (VInt 3500) (VFloat (-0.25)) ]}.

Definition post (title : string) : value :=
  VDict {[ "title" := VStr title;
           "source" := VDict {[ "title" := VStr "CoinDesk" ]};
           "published_at" := VStr "2025-01-01T00:00:00Z" ]}.

Definition six_posts : list value :=
  [post "a"; post "b"; post "c"; post "d"; post "e"; post "f"].

(** A news response with six posts. *)
Definition posts : value := VDict {[ "results" := VList six_posts ]}.

(** What the price provider answers to a key it rejects: status 401 and a
    JSON body that describes the error. *)
Definition rejected : response :=
  Response 401
    (Ok (VDict {[ "status" := VDict {[ "error_code" := VInt 10002;
                                        "error_message" := VStr "API Key Missing" ]} ]})).

Definition is_price_request (r : http_request) : bool :=
  String.prefix "https://api.coingecko.com/" (url r).

(** A world from what each of the three providers does. *)
Definition world (prices news : exc response) (summary : exc message) : env :=
  {| COINGECKO_KEY := "cg-key";
     CRYPTOPANIC_KEY := "cp-key";
     ANTHROPIC_KEY := "sk-key";
     requests_get := fun r => if is_price_request r then prices else news;
     messages_create := fun _ _ => summary;
     repr := fun _ => "?" |}.

(** The prompt built from [quotes] and [six_posts]. *)
Definition sample_prompt : string :=
  Eval vm_compute in
    prompt_text "67,000.50" "2.50" "3,500.00" "-0.25" ["- a"; "- b"; "- c"].

Definition answered : exc message := Ok (Message [TextBlock "Markets are calm."]).

(** Every provider answers. *)
Definition steady : env :=
  world (Ok (Response 200 (Ok quotes))) (Ok (Response 200 (Ok posts))) answered.

(** The price provider rejects the key. *)
Definition rejected_key : env :=
  world (Ok rejected) (Ok (Response 200 (Ok posts))) answered.

(** The price provider cannot be reached. *)
Definition prices_down : env :=
  world (raise RequestException "Connection refused")
        (Ok (Response 200 (Ok posts))) answered.

(** The news provider cannot be reached. *)
Definition news_down : env :=
  world (Ok (Response 200 (Ok quotes)))
        (raise RequestException "Connection refused") answered.

(** The text generator rejects the key. *)
Definition summary_down : env :=
  world (Ok (Response 200 (Ok quotes))) (Ok (Response 200 (Ok posts)))
        (raise APIError "invalid x-api-key").

(** The text generator answers with an empty text. *)
Definition silent : env :=
  world (Ok (Response 200 (Ok quotes))) (Ok (Response 200 (Ok posts)))
        (Ok (Message [TextBlock EmptyString])).

End Examples.

(** ** What a run does outside, and the layout of a post *)

Module Outside.
Import Py St App.

(** The events other than what is shown: the requests and the calls. *)
Definition is_show (ev : event) : bool :=
  match ev with
  | Show _ => true
  | _ => false
  end.

Definition externals (t : list event) : list event :=
  List.filter (fun ev => negb (is_show ev)) t.

(** The fields the news section reads of a post, in the order in which
    lines 149-150 read them. *)
Definition post_fields (item : value) : exc (value * value * value) :=
  title ← subscript item "title";
  source ← subscript item "source";
  source_title ← subscript source "title";
  published_at ← subscript item "published_at";
  Ok (title, source_title, published_at).

(** What lines 148-151 show of a post with these fields. *)
Definition post_layout (repr : value → string) (fields : value * value * value)
  : list event :=
  let '(title, source_title, published_at) := fields in
  [Show st_container;
   Show (st_markdown ("**" ++ str repr title ++ "**"));
   Show (st_caption (str repr source_title ++ " • " ++ str repr published_at));
   Show (st_markdown "---")].

(** A number, for [+] and [/]: an int, a bool or a float. *)
Definition is_number (v : value) : bool :=
  match as_number v with
  | Some _ => true
  | None => false
  end.

(** The same world with another text generator. *)
Definition with_generator (w : env)
    (generator : string → create_params → exc message) : env :=
  {| COINGECKO_KEY := COINGECKO_KEY w;
     CRYPTOPANIC_KEY := CRYPTOPANIC_KEY w;
     ANTHROPIC_KEY := ANTHROPIC_KEY w;
     requests_get := requests_get w;
     messages_create := generator;
     repr := repr w |}.

(** The same world with other status codes on the responses. *)
Definition with_status (w : env) (status : http_request → Z) : env :=
  {| COINGECKO_KEY := COINGECKO_KEY w;
     CRYPTOPANIC_KEY := CRYPTOPANIC_KEY w;
     ANTHROPIC_KEY := ANTHROPIC_KEY w;
     requests_get := fun r =>
       (fun answer => Response (status r) (json answer)) <$> requests_get w r;
     messages_create := messages_create w;
     repr := repr w |}.

End Outside.

(** ** The whole page *)

Module Page.
Import Py St App Outside.

(** What the page shows before the pipeline (lines 8-22), and the events
    of the pipeline. *)
Inductive page_event : Type :=
| SetPageConfig (page_title page_icon layout : string)
| Title (body : string)
| Columns (spec : list Z)
| Button (label : string) (use_container_width : bool)
| Body (ev : event).

(** How a run of the script ends: at its last line, at [st.stop()], at
    [st.rerun()], or with an exception nothing caught. *)
Inductive ending : Type :=
| Completed
| Stopped
| Rerun
| Uncaught (e : exn).

(** What a run of the whole script depends on.  [last_updated] is the text
    [datetime.now().strftime('%B %d, %Y at %I:%M %p')]; [update_clicked] is
    what [st.button] returns; a secret is a string. *)
Record session : Type := Session {
  last_updated : string;
  update_clicked : bool;
  secrets : gmap string string;
  net_get : http_request → exc response;
  llm_create : string → create_params → exc message;
  py_repr : value → string
}.

(** Lines 25-29: the body of the [try]; a missing secret raises, and the
    bare [except] does not look at the exception. *)
Definition load_keys (s : session) : option (string * string * string) :=
  coingecko ← secrets s !! "COINGECKO_API_KEY";
  cryptopanic ← secrets s !! "CRYPTOPANIC_API_KEY";
  anthropic ← secrets s !! "ANTHROPIC_API_KEY";
  Some (coingecko, cryptopanic, anthropic).

(** The pipeline's world once the secrets are read. *)
Definition env_of (s : session) (keys : string * string * string) : env :=
  let '(coingecko, cryptopanic, anthropic) := keys in
  {| COINGECKO_KEY := coingecko;
     CRYPTOPANIC_KEY := cryptopanic;
     ANTHROPIC_KEY := anthropic;
     requests_get := net_get s;
     messages_create := llm_create s;
     repr := py_repr s |}.

(** Lines 8-22, up to the test of the button. *)
Definition page_head (s : session) : list page_event :=
  [SetPageConfig "Crypto AI Dashboard" "🤖" "wide";
   Title "🤖 Crypto AI Briefing Dashboard";
   Body (Show (st_caption ("Last updated: " ++ last_updated s)));
   Columns [1; 1; 4];
   Button "🔄 Update Now" true].

(** Line 30. *)
Definition keys_error : page_event :=
  Body (Show (st_error
    "⚠️ API keys not configured. Go to Settings → Secrets to add your keys.")).

(** The whole script, lines 8-160, both fetches executed ([Cache.page] is
    the general case). *)
Definition app (s : session) : list page_event * ending :=
  if update_clicked s then (page_head s, Rerun)
  else
    match load_keys s with
    | None => ((page_head s ++ [keys_error])%list, Stopped)
    | Some keys =>
        let '(t, r) := main (env_of s keys) in
        ((page_head s ++ (Body <$> t))%list,
         match r with
         | Ok _ => Completed
         | Error e => Uncaught e
         end)
    end.

(** The requests and calls among the events of a page. *)
Definition page_externals (t : list page_event) : list event :=
  externals (omap (fun pe => match pe with Body ev => Some ev | _ => None end) t).

(** A session over the providers of a world, with the given secrets. *)
Definition session_of (w : env) (clicked : bool) (keys : gmap string string)
  : session :=
  {| last_updated := "January 01, 2025 at 09:30 AM";
     update_clicked := clicked;
     secrets := keys;
     net_get := requests_get w;
     llm_create := messages_create w;
     py_repr := repr w |}.

Definition all_keys : gmap string string :=
  {[ "COINGECKO_API_KEY" := "cg-key";
     "CRYPTOPANIC_API_KEY" := "cp-key";
     "ANTHROPIC_API_KEY" := "sk-key" ]}.

End Page.

(** ** More sample providers, and what counts as no data *)

Module Cases.
Import Py St App Examples.

(** A body that [if prices:] takes for no data: Python's false values
    among what JSON decodes to. *)
Definition no_data (body : value) : Prop :=
  body = VNone ∨ body = VBool false ∨ body = VInt 0
  ∨ (∃ f : float, body = VFloat f ∧ (f =? 0)%float = true)
  ∨ body = VStr EmptyString ∨ body = VList [] ∨ body = VDict ∅.

(** What the news provider answers to a token it rejects: status 401 and
    a JSON body without results. *)
Definition token_rejected : response :=
  Response 401
    (Ok (VDict {[ "status" := VStr "Incomplete";
                  "info" := VStr "Token not found" ]})).

(** An answer whose body is not JSON. *)
Definition garbled : response :=
  Response 502 (raise JSONDecodeError "Expecting value: line 1 column 1 (char 0)").

(** The news provider rejects the token. *)
Definition news_rejected : env :=
  world (Ok (Response 200 (Ok quotes))) (Ok token_rejected) answered.

(** The news provider answers something that is not JSON. *)
Definition news_garbled : env :=
  world (Ok (Response 200 (Ok quotes))) (Ok garbled) answered.

(** The price provider answers an empty JSON object. *)
Definition prices_empty : env :=
  world (Ok (Response 200 (Ok (VDict ∅)))) (Ok (Response 200 (Ok posts))) answered.

(** The text generator answers with no content block. *)
Definition no_content : env :=
  world (Ok (Response 200 (Ok quotes))) (Ok (Response 200 (Ok posts)))
        (Ok (Message [])).

(** The text generator answers with a block that is not text. *)
Definition tool_block : env :=
  world (Ok (Response 200 (Ok quotes))) (Ok (Response 200 (Ok posts)))
        (Ok (Message [OtherBlock "ToolUseBlock"; TextBlock "ignored"])).

(** Quotes in which a 24h change is a JSON integer and a price lies half
    way between two hundredths. *)
Definition round_quotes : value :=
  VDict {[ "bitcoin" := quote (VFloat 67000.5) (VInt 2);
           "ethereum" := quote (VFloat 3500.125) (VFloat (-0.25)) ]}.

End Cases.

(** ** The cache of the two fetches *)

Module Cache.
Import Py St App Outside Page.

(** A live entry of [st.cache_data] for a function without arguments: the
    value an earlier call returned and the elements it showed; the
    decorator replays them and does not run the body.  Whether an entry
    is live (stored less than [ttl] seconds ago) is Streamlit's to decide:
    a run is given the entries that are. *)
Definition entry : Type := list element * value.

Record cache : Type := CacheState {
  live_prices : option entry;  (* line 34, ttl=300 *)
  live_news : option entry     (* line 51, ttl=600 *)
}.

(** [@st.cache_data] around a function without arguments. *)
Definition cache_data (live : option entry) (body : script value) : script value :=
  match live with
  | Some (shown, v) => (Show <$> shown, Ok v)
  | None => body
  end.

(** Lines 94-160 with the two decorated functions. *)
Definition run (c : cache) (w : env) : script unit :=
  show (st_spinner "Fetching latest data...");;
  prices ← cache_data (live_prices c) (get_crypto_prices w);
  news ← cache_data (live_news c) (get_crypto_news w);
  present w prices news.

(** The whole script, lines 8-160, with the two decorated functions. *)
Definition page (c : cache) (s : session) : list page_event * ending :=
  if update_clicked s then (page_head s, Rerun)
  else
    match load_keys s with
    | None => ((page_head s ++ [keys_error])%list, Stopped)
    | Some keys =>
        let '(t, r) := run c (env_of s keys) in
        ((page_head s ++ (Body <$> t))%list,
         match r with
         | Ok _ => Completed
         | Error e => Uncaught e
         end)
    end.

(** Nothing stored, or everything expired. *)
Definition cold : cache := {| live_prices := None; live_news := None |}.

End Cache.

(** ** Reading a figure back *)

Module Figures.
Import Py St App.

(** The value of a decimal digit. *)
Definition digit_value (c : ascii) : Z := Z.of_nat (nat_of_ascii c) - 48.

Definition is_comma (c : ascii) : bool := Ascii.eqb c ","%char.
Definition is_point (c : ascii) : bool := Ascii.eqb c "."%char.

(** The number of hundredths that a text of digits, a point and two
    digits denotes, read from the left; commas between the digits before
    the point are separators.  [acc] is the number read so far. *)
Fixpoint read_fixed (acc : Z) (l : list ascii) : option Z :=
  match l with
  | [] => None
  | c :: l' =>
      if is_comma c then read_fixed acc l'
      else if is_digit c then read_fixed (10 * acc + digit_value c) l'
      else if is_point c then
        match l' with
        | [d1; d2] =>
            if (is_digit d1 && is_digit d2)%bool
            then Some (100 * acc + 10 * digit_value d1 + digit_value d2)
            else None
        | _ => None
        end
      else None
  end.

(** The same with a sign in front. *)
Definition read_figure (s : string) : option Z :=
  match list_ascii_of_string s with
  | "-"%char :: l => Z.opp <$> read_fixed 0 l
  | l => read_fixed 0 l
  end.

(** [h] hundredths is [m * 2^e] rounded to two decimal places, to the
    nearest, a tie going to the even neighbour. *)
Definition nearest_hundredths (m : positive) (e : Z) (h : Z) : Prop :=
  if 0 <=? e then h = Z.pos m * 2 ^ e * 100
  else
    let unit := 2 ^ (- e) in
    2 * Z.abs (100 * Z.pos m - h * unit) ≤ unit
    ∧ (2 * Z.abs (100 * Z.pos m - h * unit) = unit → Z.even h = true).

(** [h] hundredths is the finite float [f] rounded to two decimal places,
    with its sign. *)
Definition hundredths_of (f : float) (h : Z) : Prop :=
  match Prim2SF f with
  | S754_zero _ => h = 0
  | S754_finite negative m e =>
      ∃ k : Z, nearest_hundredths m e k ∧ h = if negative then - k else k
  | _ => False
  end.

(** The text shows the number [v] to two decimal places.  A number that is
    not a float ([int], [bool]) is shown as the float it converts to. *)
Definition shows (text : string) (v : value) : Prop :=
  ∃ (n : number) (f : float) (h : Z),
    as_number v = Some n
    ∧ float_of_number n = Ok f
    ∧ hundredths_of f h
    ∧ read_figure text = Some h.

(** The quotes hold this price and this 24h change for the asset. *)
Definition quoted (quotes : value) (asset : string) (price change : value) : Prop :=
  ∃ d q : gmap string value,
    quotes = VDict d
    ∧ d !! asset = Some (VDict q)
    ∧ q !! "usd" = Some price
    ∧ q !! "usd_24h_change" = Some change.

(** The line of the prompt for a news item: a dash, a blank and the title
    (a string as it is, anything else as [str] gives it). *)
Definition headline_of (w : env) (item : value) (line : string) : Prop :=
  ∃ (m : gmap string value) (title : value),
    item = VDict m
    ∧ m !! "title" = Some title
    ∧ line = "- " ++ match title with
                     | VStr s => s
                     | _ => str (repr w) title
                     end.

End Figures.

(** ** Facts about the sentiment card *)

Module SentimentFacts.
Import Py App Spec.

Lemma label_text_inj (l l' : SentimentLabel) : label_text l = label_text l' → l = l'.
Proof. destruct l, l'; simpl; intros H; first [reflexivity | discriminate H]. Qed.

(** The if / elif chain of the source picks the first threshold exceeded. *)
Lemma sentiment_derive (avg : float) : sentiment avg = label_text (derive avg).
Proof.
  unfold sentiment, derive, thresholds, gt_int; simpl.
  change (nearest_float 2 0) with 2%float.
  change (nearest_float 0 0) with 0%float.
  change (nearest_float (-2) 0) with (-2)%float.
  destruct (2 <? avg)%float; [reflexivity|].
  destruct (0 <? avg)%float; [reflexivity|].
  destruct (-2 <? avg)%float; reflexivity.
Qed.

(** A strict lower bound stays one when the bounded float grows. *)
Lemma SFltb_SFleb_trans (t a b : spec_float) :
  SFltb t a = true → SFleb a b = true → SFltb t b = true.
Proof.
  unfold SFltb, SFleb.
  destruct t as [st| st | |st mt et], a as [sa|sa| |sa ma ea], b as [sb|sb| |sb mb eb];
    simpl; try discriminate; try reflexivity;
    repeat match goal with s : bool |- _ => destruct s end; simpl;
    try discriminate; try reflexivity.
  all: destruct (Z.compare_spec et ea), (Z.compare_spec ea eb), (Z.compare_spec et eb);
    try lia; try discriminate; try reflexivity; subst.
  all: change (PosDef.Pos.compare_cont Eq) with Pos.compare.
  all: destruct (Pos.compare_spec mt ma), (Pos.compare_spec ma mb), (Pos.compare_spec mt mb);
    simpl; try lia; try discriminate; try reflexivity.
Qed.

Lemma gt_int_mono (k : Z) (x y : float) :
  (x <=? y)%float = true → gt_int x k = true → gt_int y k = true.
Proof.
  unfold gt_int. rewrite !ltb_spec, leb_spec. intros Hle Hlt.
  exact (SFltb_SFleb_trans _ _ _ Hlt Hle).
Qed.

Lemma derive_monotone (avg1 avg2 : float) :
  (avg1 <=? avg2)%float = true → (rank (derive avg1) ≤ rank (derive avg2))%nat.
Proof.
  intros Hle.
  pose proof (gt_int_mono 2 _ _ Hle) as H2.
  pose proof (gt_int_mono 0 _ _ Hle) as H0.
  pose proof (gt_int_mono (-2) _ _ Hle) as Hm.
  unfold gt_int in *.
  change (nearest_float 2 0) with 2%float in H2.
  change (nearest_float 0 0) with 0%float in H0.
  change (nearest_float (-2) 0) with (-2)%float in Hm.
  unfold derive, thresholds; simpl.
  destruct (2 <? avg1)%float.
  { rewrite H2 by reflexivity. simpl. lia. }
  destruct (0 <? avg1)%float.
  { rewrite H0 by reflexivity. destruct (2 <? avg2)%float; simpl; lia. }
  destruct (-2 <? avg1)%float.
  { rewrite Hm by reflexivity.
    destruct (2 <? avg2)%float, (0 <? avg2)%float; simpl; lia. }
  simpl. lia.
Qed.

Lemma avg_change_floats (x y : float) :
  avg_change (VFloat x) (VFloat y) = Ok ((x + y) / 2)%float.
Proof. reflexivity. Qed.

Lemma market_sentiment_derive (a b : value) :
  market_sentiment a b = (fun avg => label_text (derive avg)) <$> avg_change a b.
Proof.
  unfold market_sentiment. destruct (avg_change a b) as [avg|e]; simpl; [|reflexivity].
  now rewrite sentiment_derive.
Qed.

(** C1. The label shown is the one of the first threshold, tried in the
    order 2, 0, -2, that the average (btc_change + eth_change) / 2 strictly
    exceeds, and Fear when it exceeds none; an average of exactly 2 is
    Optimistic, of exactly 0 Cautious, of exactly -2 Fear. *)
Theorem sentiment_first_threshold :
  (∀ a b : value,
     market_sentiment a b = (fun avg => label_text (derive avg)) <$> avg_change a b)
  ∧ (∀ x y : float, avg_change (VFloat x) (VFloat y) = Ok ((x + y) / 2)%float)
  ∧ sentiment 2 = label_text Optimistic
  ∧ sentiment 0 = label_text Cautious
  ∧ sentiment (-2) = label_text Fear.
Proof.
  split; [exact market_sentiment_derive|].
  split; [exact avg_change_floats|].
  repeat split; reflexivity.
Qed.

(** C7. The derivation is a function of the two changes, defined whenever
    their average is, and monotone in the average: of two pairs with
    avg1 <= avg2 the first has the label of lower or equal rank in
    Fear < Cautious < Optimistic < Greed. *)
Theorem sentiment_monotone (a1 b1 a2 b2 : value) (avg1 avg2 : float) :
  avg_change a1 b1 = Ok avg1 →
  avg_change a2 b2 = Ok avg2 →
  (avg1 <=? avg2)%float = true →
  ∃ l1 l2 : SentimentLabel,
    market_sentiment a1 b1 = Ok (label_text l1)
    ∧ market_sentiment a2 b2 = Ok (label_text l2)
    ∧ (rank l1 ≤ rank l2)%nat.
Proof.
  intros H1 H2 Hle.
  exists (derive avg1), (derive avg2).
  rewrite !market_sentiment_derive, H1, H2.
  repeat split. now apply derive_monotone.
Qed.

Lemma sentiment_monotone_witness :
  ∃ l1 l2 : SentimentLabel,
    market_sentiment (VFloat (-1)) (VFloat (-1)) = Ok (label_text l1)
    ∧ market_sentiment (VFloat 4) (VInt 2) = Ok (label_text l2)
    ∧ (rank l1 ≤ rank l2)%nat.
Proof.
  apply (sentiment_monotone (VFloat (-1)) (VFloat (-1)) (VFloat 4) (VInt 2) (-1) 3);
    reflexivity.
Defined.

End SentimentFacts.

(** ** Facts about the two fetches and the run *)

Module FetchFacts.
Import Py St App Spec Examples.

Lemma fetch_prices_eq (w : env) :
  fetch_prices w
  = ([HttpGet (prices_request w)],
     response ← requests_get w (prices_request w); json response).
Proof.
  unfold fetch_prices, http_get. simpl.
  destruct (requests_get w (prices_request w)) as [r|e]; reflexivity.
Qed.

Lemma fetch_news_eq (w : env) :
  fetch_news w
  = ([HttpGet (news_request w)],
     response ← requests_get w (news_request w); top_five response).
Proof.
  unfold fetch_news, http_get. simpl.
  destruct (requests_get w (news_request w)) as [r|e]; simpl; [|reflexivity].
  destruct (top_five r); reflexivity.
Qed.

(** Neither fetch raises: the handler turns any exception of the body
    into a shown error and an empty value. *)
Lemma get_crypto_prices_eq (w : env) :
  get_crypto_prices w
  = match outcome (fetch_prices w) with
    | Ok v => ([HttpGet (prices_request w)], Ok v)
    | Error e =>
        ([HttpGet (prices_request w);
          Show (st_error ("Error fetching prices: " ++ exn_str e))], Ok VNone)
    end.
Proof.
  unfold get_crypto_prices. rewrite fetch_prices_eq. simpl.
  destruct (requests_get w (prices_request w) ≫= _); reflexivity.
Qed.

Lemma get_crypto_news_eq (w : env) :
  get_crypto_news w
  = match outcome (fetch_news w) with
    | Ok v => ([HttpGet (news_request w)], Ok v)
    | Error e =>
        ([HttpGet (news_request w);
          Show (st_error ("Error fetching news: " ++ exn_str e))], Ok (VList []))
    end.
Proof.
  unfold get_crypto_news. rewrite fetch_news_eq. simpl.
  destruct (requests_get w (news_request w) ≫= _); reflexivity.
Qed.

Lemma get_crypto_prices_returns (w : env) :
  ∃ t v, get_crypto_prices w = (t, Ok v).
Proof. rewrite get_crypto_prices_eq. destruct (outcome _); eauto. Qed.

Lemma get_crypto_news_returns (w : env) :
  ∃ t v, get_crypto_news w = (t, Ok v).
Proof. rewrite get_crypto_news_eq. destruct (outcome _); eauto. Qed.

Lemma length_substring (n : nat) (s : string) :
  (String.length (substring 0 n s) ≤ n)%nat.
Proof.
  revert s; induction n as [|n IH]; intros [|c s]; simpl; try lia.
  specialize (IH s). lia.
Qed.

Lemma slice_to_len (n : nat) (v r : value) :
  slice_to n v = Ok r → ∃ k, len r = Some k ∧ (k ≤ n)%nat.
Proof.
  destruct v; simpl; try discriminate; intros [= <-]; simpl.
  - eexists; split; [reflexivity|]. apply length_substring.
  - eexists; split; [reflexivity|]. rewrite length_take. lia.
Qed.

Lemma top_five_len (r : response) (v : value) :
  top_five r = Ok v → ∃ k, len v = Some k ∧ (k ≤ 5)%nat.
Proof.
  unfold top_five. destruct (json r) as [data|]; simpl; [|discriminate].
  destruct (dict_get data "results" (VList [])) as [res|]; simpl; [|discriminate].
  apply slice_to_len.
Qed.

Lemma get_crypto_news_len (w : env) :
  ∃ v n, outcome (get_crypto_news w) = Ok v ∧ len v = Some n ∧ (n ≤ 5)%nat.
Proof.
  rewrite get_crypto_news_eq, fetch_news_eq. simpl.
  destruct (requests_get w (news_request w)) as [r|e]; simpl.
  - destruct (top_five r) as [v|e] eqn:E; simpl.
    + destruct (top_five_len _ _ E) as (k & Hk & Hle). eauto.
    + exists (VList []), 0%nat. simpl. repeat split; lia.
  - exists (VList []), 0%nat. simpl. repeat split; lia.
Qed.

(** The run, once both fetches have returned. *)
Lemma main_unfold (w : env) (tp tn : list event) (prices news : value) :
  get_crypto_prices w = (tp, Ok prices) →
  get_crypto_news w = (tn, Ok news) →
  main w
  = ((Show (st_spinner "Fetching latest data...") :: tp ++ tn
      ++ trace (present w prices news))%list,
     outcome (present w prices news)).
Proof.
  intros Hp Hn. unfold main. rewrite Hp, Hn. simpl.
  destruct (present w prices news) as [t r]. simpl.
  reflexivity.
Qed.

Lemma present_no_data (w : env) (prices news : value) :
  truthy prices = false →
  present w prices news = ((Show top_level_error :: footer)%list, Ok tt).
Proof. intros H. unfold present. rewrite H. reflexivity. Qed.

End FetchFacts.

(** ** Facts about the prompt and the analysis *)

Module AnalysisFacts.
Import Py St App Spec Examples Cases.

(** *** Finite floats and lists of results *)

Lemma is_finite_cases (f : float) :
  is_finite f = true →
  (∃ s, Prim2SF f = S754_zero s) ∨ (∃ s m e, Prim2SF f = S754_finite s m e).
Proof.
  unfold is_finite, is_nan, is_infinity.
  rewrite !FloatAxioms.eqb_spec, abs_spec.
  destruct (Prim2SF f) as [s|[]| |s m e]; eauto; intros H; vm_compute in H; discriminate.
Qed.

Lemma append_cons (c : ascii) (a b : string) : String c a ++ b = String c (a ++ b).
Proof. reflexivity. Qed.

Lemma mapM_exc {A B : Type} (f : A → exc B) (l : list A) (k : list B) :
  mapM f l = Ok k ↔ Forall2 (fun x y => f x = Ok y) l k.
Proof.
  revert k; induction l as [|x l IH]; intros k; simpl.
  - split; [intros [= <-]; constructor | intros H; inversion H; reflexivity].
  - split.
    + destruct (f x) as [y|e] eqn:Hx; simpl; [|discriminate].
      destruct (mapM f l) as [k'|e] eqn:Hl; simpl; [|discriminate].
      intros [= <-]. constructor; [assumption|]. now apply IH.
    + intros H. inversion H as [|? y ? k' Hx Hl]; subst.
      rewrite Hx. simpl. apply IH in Hl. rewrite Hl. reflexivity.
Qed.

(** *** The analysis *)

Lemma request_analysis_eq (w : env) (p n : value) :
  request_analysis w p n
  = match build_prompt w p n with
    | Error e => ([], Error e)
    | Ok prompt =>
        ([MessagesCreate (ANTHROPIC_KEY w) (analysis_params prompt)],
         message ← messages_create w (ANTHROPIC_KEY w) (analysis_params prompt);
         first_text message)
    end.
Proof.
  unfold request_analysis, create.
  destruct (build_prompt w p n) as [prompt|e]; simpl; [|reflexivity].
  destruct (messages_create w _ _) as [m|e]; reflexivity.
Qed.

Lemma get_ai_analysis_eq (w : env) (p n : value) :
  get_ai_analysis w p n
  = (trace (request_analysis w p n),
     Ok match outcome (request_analysis w p n) with
        | Ok text => text
        | Error e => fallback e
        end).
Proof.
  unfold get_ai_analysis.
  destruct (request_analysis w p n) as [t [text|e]]; simpl; [reflexivity|].
  now rewrite app_nil_r.
Qed.

Lemma fallback_not_empty (e : exn) :
  "Unable to generate AI analysis: " ++ exn_str e ≠ EmptyString.
Proof. discriminate. Qed.

(** C2, amended. The prompt being built, the analysis calls the text
    generator once, with the model claude-sonnet-4-20250514, at most 500
    tokens and the prompt as the one user message, and never raises.  When
    the call raises (authentication, network), the summary is the text
    Unable to generate AI analysis: followed by the text of the exception.
    When the response holds no content block, the summary is that text
    followed by list index out of range; when its first block is not a
    text block, by the missing attribute.  These three summaries are not
    empty.  When the first block is a text block, the summary is its text
    as it came, empty or not. *)
Theorem get_ai_analysis_summary (w : env) (price_data news_data : value)
    (prompt : string) :
  let request :=
    {| model := "claude-sonnet-4-20250514";
       max_tokens := 500;
       messages := [("user", prompt)] |} in
  let answer := messages_create w (ANTHROPIC_KEY w) request in
  let returns (summary : string) :=
    get_ai_analysis w price_data news_data
    = ([MessagesCreate (ANTHROPIC_KEY w) request], Ok summary) in
  let falls_back (reason : string) :=
    returns ("Unable to generate AI analysis: " ++ reason)
    ∧ "Unable to generate AI analysis: " ++ reason ≠ EmptyString in
  build_prompt w price_data news_data = Ok prompt →
  (∀ e : exn, answer = Error e → falls_back (exn_str e))
  ∧ (∀ m : message,
       answer = Ok m → content m = [] → falls_back "list index out of range")
  ∧ (∀ (m : message) (class_name : string) (rest : list content_block),
       answer = Ok m →
       content m = OtherBlock class_name :: rest →
       falls_back ("'" ++ class_name ++ "' object has no attribute 'text'"))
  ∧ (∀ (m : message) (text : string) (rest : list content_block),
       answer = Ok m → content m = TextBlock text :: rest → returns text).
Proof.
  change {| model := "claude-sonnet-4-20250514"; max_tokens := 500;
            messages := [("user", prompt)] |} with (analysis_params prompt).
  cbv zeta. intros Hp.
  rewrite get_ai_analysis_eq, request_analysis_eq, Hp. simpl.
  split.
  { intros e He. rewrite He. split; [reflexivity|discriminate]. }
  split.
  { intros m Hm Hc. rewrite Hm. simpl. unfold first_text. rewrite Hc.
    split; [reflexivity|discriminate]. }
  split.
  { intros m c rest Hm Hc. rewrite Hm. simpl. unfold first_text. rewrite Hc.
    split; [reflexivity|discriminate]. }
  intros m text rest Hm Hc. rewrite Hm. simpl. unfold first_text. rewrite Hc.
  reflexivity.
Qed.

Lemma get_ai_analysis_summary_witness :
  ∃ prompt : string,
    let called :=
      [MessagesCreate "sk-key"
         {| model := "claude-sonnet-4-20250514";
            max_tokens := 500;
            messages := [("user", prompt)] |}] in
    build_prompt steady quotes (VList six_posts) = Ok prompt
    (* the generator rejects the key *)
    ∧ get_ai_analysis summary_down quotes (VList six_posts)
      = (called, Ok "Unable to generate AI analysis: invalid x-api-key")
    (* the response holds no block *)
    ∧ get_ai_analysis no_content quotes (VList six_posts)
      = (called, Ok "Unable to generate AI analysis: list index out of range")
    (* the first block is not text *)
    ∧ get_ai_analysis tool_block quotes (VList six_posts)
      = (called,
         Ok "Unable to generate AI analysis: 'ToolUseBlock' object has no attribute 'text'")
    (* the first block is text *)
    ∧ get_ai_analysis steady quotes (VList six_posts)
      = (called, Ok "Markets are calm.").
Proof.
  exists sample_prompt. cbv zeta.
  split; [vm_compute; reflexivity|].
  split.
  { destruct (get_ai_analysis_summary summary_down quotes (VList six_posts)
                sample_prompt) as (H & _); [vm_compute; reflexivity|].
    apply (H (Exn APIError "invalid x-api-key")). reflexivity. }
  split.
  { destruct (get_ai_analysis_summary no_content quotes (VList six_posts)
                sample_prompt) as (_ & H & _); [vm_compute; reflexivity|].
    apply (H (Message [])); reflexivity. }
  split.
  { destruct (get_ai_analysis_summary tool_block quotes (VList six_posts)
                sample_prompt) as (_ & _ & H & _); [vm_compute; reflexivity|].
    apply (H (Message [OtherBlock "ToolUseBlock"; TextBlock "ignored"])
             "ToolUseBlock" [TextBlock "ignored"]); reflexivity. }
  destruct (get_ai_analysis_summary steady quotes (VList six_posts)
              sample_prompt) as (_ & _ & _ & H); [vm_compute; reflexivity|].
  apply (H (Message [TextBlock "Markets are calm."]) "Markets are calm." []);
    reflexivity.
Defined.

(** C2 as written fails: a generator that answers with an empty text makes
    the summary empty. *)
Lemma empty_text_gives_empty_summary :
  first_text (Message [TextBlock EmptyString]) = Ok EmptyString
  ∧ outcome (get_ai_analysis silent quotes (VList six_posts)) = Ok EmptyString.
Proof. split; vm_compute; reflexivity. Qed.

(** C10. Whatever the price data and the news data are, the analysis
    returns a string and does not raise; when building the prompt raises
    (a missing key, a field that is not a number, an item without a title),
    the string is the fallback with the text of that exception and the
    text generator is not called.  A mapping without the bitcoin key is one
    such input. *)
Theorem get_ai_analysis_total (w : env) (price_data news_data : value) :
  (∃ summary : string,
     outcome (get_ai_analysis w price_data news_data) = Ok summary
     ∧ match build_prompt w price_data news_data with
       | Ok _ => True
       | Error e =>
           get_ai_analysis w price_data news_data
           = ([], Ok ("Unable to generate AI analysis: " ++ exn_str e))
       end)
  ∧ (∀ d : gmap string value,
       get_ai_analysis w (VDict (delete "bitcoin" d)) news_data
       = ([], Ok "Unable to generate AI analysis: 'bitcoin'")).
Proof.
  split.
  - rewrite get_ai_analysis_eq. eexists; split; [reflexivity|].
    rewrite request_analysis_eq.
    destruct (build_prompt w price_data news_data); [exact I|reflexivity].
  - intros d. rewrite get_ai_analysis_eq, request_analysis_eq.
    unfold build_prompt, figure. simpl. rewrite lookup_delete_eq. reflexivity.
Qed.

End AnalysisFacts.

(** ** Facts about reading a figure back *)

Module FigureFacts.
Import Py St App Figures.

(** The number read from digits and commas alone. *)
Fixpoint horner (acc : Z) (l : list ascii) : Z :=
  match l with
  | [] => acc
  | c :: l' =>
      if is_comma c then horner acc l' else horner (10 * acc + digit_value c) l'
  end.

Definition numeral_char (c : ascii) : bool := (is_comma c || is_digit c)%bool.

Lemma read_fixed_numeral (l l' : list ascii) (acc : Z) :
  forallb numeral_char l = true →
  read_fixed acc (l ++ l') = read_fixed (horner acc l) l'.
Proof.
  revert acc; induction l as [|c l IH]; intros acc H; [reflexivity|].
  simpl in H. apply andb_prop in H as [Hc Hl].
  unfold numeral_char in Hc. simpl. destruct (is_comma c).
  - apply IH, Hl.
  - simpl in Hc. rewrite Hc. apply IH, Hl.
Qed.

Lemma horner_filter (l : list ascii) (acc : Z) :
  horner acc (List.filter (fun c => negb (is_comma c)) l) = horner acc l.
Proof.
  revert acc; induction l as [|c l IH]; intros acc; [reflexivity|].
  simpl. destruct (is_comma c) eqn:E; simpl; [apply IH|].
  rewrite E. apply IH.
Qed.

Lemma filter_commas_rev (l : list ascii) (k : nat) :
  List.filter (fun c => negb (is_comma c)) (commas_rev l k)
  = List.filter (fun c => negb (is_comma c)) l.
Proof.
  revert k; induction l as [|c l IH]; intros k; [reflexivity|].
  destruct k as [|[|[|[|k]]]]; simpl; rewrite IH; reflexivity.
Qed.

Lemma filter_rev {A : Type} (p : A → bool) (l : list A) :
  List.filter p (rev l) = rev (List.filter p l).
Proof.
  induction l as [|x l IH]; [reflexivity|].
  simpl. rewrite List.filter_app, IH. simpl.
  destruct (p x); simpl; [reflexivity|now rewrite app_nil_r].
Qed.

Lemma horner_grouped (l : list ascii) :
  horner 0 (rev (commas_rev (rev l) 0)) = horner 0 l.
Proof.
  rewrite <- horner_filter, filter_rev, filter_commas_rev, <- filter_rev.
  rewrite rev_involutive. apply horner_filter.
Qed.

Lemma numeral_commas_rev (l : list ascii) (k : nat) :
  forallb numeral_char l = true → forallb numeral_char (commas_rev l k) = true.
Proof.
  revert k; induction l as [|c l IH]; intros k H; [reflexivity|].
  simpl in H. apply andb_prop in H as [Hc Hl].
  destruct k as [|[|[|[|k]]]]; simpl; rewrite Hc, IH by assumption; reflexivity.
Qed.

Lemma forallb_rev {A : Type} (p : A → bool) (l : list A) :
  forallb p (rev l) = forallb p l.
Proof.
  induction l as [|x l IH]; [reflexivity|].
  simpl. rewrite forallb_app, IH. simpl. destruct (p x), (forallb p l); reflexivity.
Qed.

Lemma numeral_grouped (l : list ascii) :
  forallb numeral_char l = true →
  forallb numeral_char (rev (commas_rev (rev l) 0)) = true.
Proof.
  intros H. rewrite forallb_rev. apply numeral_commas_rev. now rewrite forallb_rev.
Qed.

(** *** The digits of [pretty] *)

Lemma pretty_N_char_digit (k : N) :
  (k < 10)%N →
  is_comma (pretty_N_char k) = false
  ∧ is_digit (pretty_N_char k) = true
  ∧ digit_value (pretty_N_char k) = Z.of_N k.
Proof.
  intros H.
  assert (k = 0 ∨ k = 1 ∨ k = 2 ∨ k = 3 ∨ k = 4 ∨ k = 5 ∨ k = 6 ∨ k = 7
          ∨ k = 8 ∨ k = 9)%N as Hk by lia.
  repeat destruct Hk as [->|Hk]; try subst k; repeat split; reflexivity.
Qed.

Lemma horner_pretty_go (x : N) (s : string) :
  horner 0 (list_ascii_of_string (pretty_N_go x s))
  = horner (Z.of_N x) (list_ascii_of_string s).
Proof.
  revert s. induction (N.lt_wf_0 x) as [x _ IH]; intros s.
  assert (x = 0 ∨ 0 < x)%N as [->|Hx] by lia.
  { rewrite pretty_N_go_0. reflexivity. }
  rewrite pretty_N_go_step by assumption.
  rewrite IH by (apply N.div_lt; lia).
  destruct (pretty_N_char_digit (x `mod` 10)) as (Hc & _ & Hv).
  { apply N.mod_lt. lia. }
  simpl. rewrite Hc, Hv. f_equal.
  rewrite N2Z.inj_div, N2Z.inj_mod. change (Z.of_N 10) with 10.
  pose proof (Z.div_mod (Z.of_N x) 10). lia.
Qed.

Lemma numeral_pretty_go (x : N) (s : string) :
  forallb numeral_char (list_ascii_of_string s) = true →
  forallb numeral_char (list_ascii_of_string (pretty_N_go x s)) = true.
Proof.
  revert s. induction (N.lt_wf_0 x) as [x _ IH]; intros s Hs.
  assert (x = 0 ∨ 0 < x)%N as [->|Hx] by lia.
  { now rewrite pretty_N_go_0. }
  rewrite pretty_N_go_step by assumption.
  apply IH; [apply N.div_lt; lia|].
  destruct (pretty_N_char_digit (x `mod` 10)) as (_ & Hd & _).
  { apply N.mod_lt. lia. }
  simpl. unfold numeral_char at 1. rewrite Hd, orb_true_r. exact Hs.
Qed.

Lemma pretty_N_numeral (x : N) :
  forallb numeral_char (list_ascii_of_string (pretty x)) = true
  ∧ horner 0 (list_ascii_of_string (pretty x)) = Z.of_N x.
Proof.
  unfold pretty, pretty_N. destruct (decide (x = 0%N)) as [->|Hx].
  { split; reflexivity. }
  split; [now apply numeral_pretty_go|].
  rewrite horner_pretty_go. reflexivity.
Qed.


Lemma digit_of_nat (k : nat) :
  (k < 10)%nat →
  is_digit (ascii_of_nat (48 + k)) = true
  ∧ digit_value (ascii_of_nat (48 + k)) = Z.of_nat k.
Proof.
  intros H. do 10 (destruct k as [|k]; [split; reflexivity|]). lia.
Qed.

Lemma list_ascii_append (a b : string) :
  list_ascii_of_string (a ++ b)
  = (list_ascii_of_string a ++ list_ascii_of_string b)%list.
Proof.
  induction a as [|c a IH]; [reflexivity|].
  change (String c a ++ b) with (String c (a ++ b)). simpl. now rewrite IH.
Qed.

(** The text of [n] hundredths reads back as [n]. *)
Lemma read_fixed_text (spec : format_spec) (n : Z) :
  precision spec = 2%nat →
  0 ≤ n →
  read_fixed 0 (list_ascii_of_string (fixed_text spec n)) = Some n.
Proof.
  intros Hp Hn. unfold fixed_text. rewrite Hp.
  change (10 ^ Z.of_nat 2) with 100.
  set (q := n / 100). set (k := n mod 100).
  assert (Hk : 0 ≤ k < 100) by (apply Z.mod_pos_bound; lia).
  assert (Hq : 0 ≤ q) by (apply Z.div_pos; lia).
  assert (Hn' : n = 100 * q + k) by (apply Z.div_mod; lia).
  set (whole := if grouping spec then _ else _).
  assert (Hwhole : forallb numeral_char (list_ascii_of_string whole) = true
                   ∧ horner 0 (list_ascii_of_string whole) = q).
  { destruct (pretty_N_numeral (Z.to_N q)) as [Hnum Hval].
    rewrite Z2N.id in Hval by assumption.
    subst whole. destruct (grouping spec); [|split; assumption].
    unfold group_thousands. rewrite list_ascii_of_string_of_list_ascii.
    split; [now apply numeral_grouped|]. now rewrite horner_grouped. }
  destruct Hwhole as [Hnum Hval].
  set (c1 := ascii_of_nat (48 + Z.to_nat (k / 10 mod 10))).
  set (c2 := ascii_of_nat (48 + Z.to_nat (k mod 10))).
  change (fraction_digits 2 k) with (String c1 (String c2 EmptyString)).
  rewrite list_ascii_append.
  change (list_ascii_of_string ("." ++ String c1 (String c2 EmptyString)))
    with ["."%char; c1; c2].
  rewrite read_fixed_numeral, Hval by assumption.
  destruct (digit_of_nat (Z.to_nat (k / 10 mod 10))) as [D1 V1].
  { pose proof (Z.mod_pos_bound (k / 10) 10). lia. }
  destruct (digit_of_nat (Z.to_nat (k mod 10))) as [D2 V2].
  { pose proof (Z.mod_pos_bound k 10). lia. }
  fold c1 in D1, V1. fold c2 in D2, V2.
  change (read_fixed q ["."%char; c1; c2])
    with (if (is_digit c1 && is_digit c2)%bool
          then Some (100 * q + 10 * digit_value c1 + digit_value c2)
          else None).
  rewrite D1, D2, V1, V2. simpl andb. cbv iota. f_equal.
  rewrite !Z2Nat.id by (apply Z.mod_pos_bound; lia).
  pose proof (Z.div_mod k 10).
  assert (k / 10 mod 10 = k / 10).
  { apply Z.mod_small. split; [apply Z.div_pos; lia|].
    apply Z.div_lt_upper_bound; lia. }
  lia.
Qed.

Lemma round_half_even_nearest (n d : Z) :
  0 < d →
  let h := round_half_even n d in
  2 * Z.abs (n - h * d) ≤ d
  ∧ (2 * Z.abs (n - h * d) = d → Z.even h = true).
Proof.
  intros Hd. unfold round_half_even.
  pose proof (Z.div_mod n d) as Hdiv. pose proof (Z.mod_pos_bound n d Hd) as Hmod.
  set (q := n / d) in *. set (r := n mod d) in *.
  destruct (Z.compare_spec (2 * r) d) as [Heq|Hlt|Hgt]; cbv zeta.
  - destruct (Z.even q) eqn:Hev.
    + split; [|intros _; exact Hev]. nia.
    + split; [nia|]. intros _. rewrite Z.even_add, Hev. reflexivity.
  - split; [nia|]. intros H. nia.
  - split; [nia|]. intros H. nia.
Qed.

Lemma scaled_nearest (m : positive) (e : Z) :
  0 ≤ scaled 2 m e ∧ nearest_hundredths m e (scaled 2 m e).
Proof.
  unfold scaled, nearest_hundredths. change (10 ^ Z.of_nat 2) with 100.
  destruct (0 <=? e) eqn:He.
  - apply Z.leb_le in He. split; [|reflexivity].
    pose proof (Z.pow_nonneg 2 e). nia.
  - apply Z.leb_gt in He.
    assert (Hd : 0 < 2 ^ (- e)) by (apply Z.pow_pos_nonneg; lia).
    split.
    + unfold round_half_even.
      assert (0 ≤ Z.pos m * 100 / 2 ^ (- e)) by (apply Z.div_pos; lia).
      destruct (_ ?= _); [destruct (Z.even _)| |]; lia.
    + pose proof (round_half_even_nearest (Z.pos m * 100) (2 ^ (- e)) Hd) as H.
      cbv zeta in H. replace (100 * Z.pos m) with (Z.pos m * 100) by lia.
      exact H.
Qed.

Lemma read_figure_signed (negative : bool) (spec : format_spec) (n : Z) :
  precision spec = 2%nat →
  0 ≤ n →
  read_figure (sign_text negative ++ fixed_text spec n)
  = Some (if negative then - n else n).
Proof.
  intros Hp Hn. pose proof (read_fixed_text spec n Hp Hn) as H.
  unfold read_figure. destruct negative.
  - change (list_ascii_of_string (sign_text true ++ fixed_text spec n))
      with ("-"%char :: list_ascii_of_string (fixed_text spec n)).
    cbv beta iota. rewrite H. reflexivity.
  - change (sign_text false ++ fixed_text spec n) with (fixed_text spec n).
    destruct (list_ascii_of_string (fixed_text spec n)) as [|c l] eqn:E;
      [discriminate|].
    destruct (Ascii.eqb c "-"%char) eqn:Ec.
    + apply Ascii.eqb_eq in Ec. subst c. simpl in H. discriminate.
    + assert (c ≠ "-"%char) by (intros ->; rewrite Ascii.eqb_refl in Ec; discriminate).
      destruct c as [[] [] [] [] [] [] [] []]; try exact H; congruence.
Qed.

(** A finite float formatted with two decimals reads back as the float
    rounded to two decimal places. *)
Lemma format_float_reads (spec : format_spec) (f : float) :
  precision spec = 2%nat →
  is_finite f = true →
  ∃ h : Z, hundredths_of f h ∧ read_figure (format_float spec f) = Some h.
Proof.
  intros Hp Hf. unfold format_float, hundredths_of.
  destruct (AnalysisFacts.is_finite_cases f Hf) as [[s ->]|(s & m & e & ->)].
  - exists 0. split; [reflexivity|].
    rewrite (read_figure_signed s spec 0 Hp) by lia. now destruct s.
  - destruct (scaled_nearest m e) as [Hpos Hnear].
    exists (if s then - scaled 2 m e else scaled 2 m e).
    split; [eauto|].
    rewrite Hp. apply read_figure_signed; assumption.
Qed.

End FigureFacts.

(** ** Facts about the prompt *)

Module PromptFacts.
Import Py St App Spec Examples Cases Figures FigureFacts AnalysisFacts.

Lemma figure_shows (d q : gmap string value) (asset field : string)
    (spec : format_spec) (v : value) :
  d !! asset = Some (VDict q) →
  q !! field = Some v →
  precision spec = 2%nat →
  finite_number v = true →
  ∃ text : string, figure (VDict d) asset field spec = Ok text ∧ shows text v.
Proof.
  intros Hd Hq Hp Hv. unfold figure. simpl. rewrite Hd. simpl. rewrite Hq. simpl.
  unfold finite_number in Hv. unfold format, shows.
  destruct (as_number v) as [n|]; [|discriminate].
  destruct (float_of_number n) as [f|e] eqn:Hf; [|discriminate].
  destruct (format_float_reads spec f Hp Hv) as (h & Hh & Hread).
  exists (format_float spec f). split; [reflexivity|].
  exists n, f, h. auto.
Qed.

Lemma headline_line (w : env) (item : value) (line : string) :
  headline_of w item line → headline w item = Ok line.
Proof.
  intros (m & title & -> & Hm & ->). unfold headline. simpl. rewrite Hm. simpl.
  destruct title; reflexivity.
Qed.

(** C5. The quotes hold a price and a 24h change for bitcoin and for
    ethereum, the four of them finite numbers (floats or integers), and
    each of the first three news items has a title.  Then the prompt is
    the text below: the opening line, the two price lines, the headline
    block and the instruction that asks for a concise analysis in 3-4
    sentences, objective and data-driven.  Each of the four figures in it
    is a text of digits with a point and two decimals that reads back as
    its number rounded to two decimal places.  The headline block holds
    one line per item of the first three, in their order: as many lines
    as there are items, and three when there are more. *)
Theorem build_prompt_contents (w : env) (quotes : value)
    (btc_price btc_change eth_price eth_change : value)
    (news : list value) (lines : list string) :
  let nl := String "010"%char EmptyString in
  quoted quotes "bitcoin" btc_price btc_change →
  quoted quotes "ethereum" eth_price eth_change →
  finite_number btc_price = true →
  finite_number btc_change = true →
  finite_number eth_price = true →
  finite_number eth_change = true →
  Forall2 (headline_of w) (take 3 news) lines →
  ∃ btc_usd btc_24h eth_usd eth_24h : string,
    shows btc_usd btc_price ∧ shows btc_24h btc_change
    ∧ shows eth_usd eth_price ∧ shows eth_24h eth_change
    ∧ length lines = Nat.min 3 (length news)
    ∧ build_prompt w quotes (VList news)
      = Ok ("Analyze this cryptocurrency market data and provide a brief summary:"
            ++ nl ++ nl
            ++ "Price Data:" ++ nl
            ++ "- Bitcoin: $" ++ btc_usd ++ " (24h change: " ++ btc_24h ++ "%)" ++ nl
            ++ "- Ethereum: $" ++ eth_usd ++ " (24h change: " ++ eth_24h ++ "%)" ++ nl
            ++ nl
            ++ "Recent News Headlines:" ++ nl
            ++ String.concat nl lines ++ nl
            ++ nl
            ++ "Provide a concise analysis in 3-4 sentences covering:" ++ nl
            ++ "1. Key market movements" ++ nl
            ++ "2. Notable trends" ++ nl
            ++ "3. What to watch for" ++ nl
            ++ nl
            ++ "Be objective and data-driven.").
Proof.
  cbv zeta.
  intros (d & q1 & -> & Hd1 & Hp1 & Hc1) (d' & q2 & Heq & Hd2 & Hp2 & Hc2).
  injection Heq as <-.
  intros F1 F2 F3 F4 Hnews.
  destruct (figure_shows d q1 "bitcoin" "usd" comma_2f _ Hd1 Hp1 eq_refl F1)
    as (s1 & H1 & S1).
  destruct (figure_shows d q1 "bitcoin" "usd_24h_change" plain_2f _ Hd1 Hc1 eq_refl F2)
    as (s2 & H2 & S2).
  destruct (figure_shows d q2 "ethereum" "usd" comma_2f _ Hd2 Hp2 eq_refl F3)
    as (s3 & H3 & S3).
  destruct (figure_shows d q2 "ethereum" "usd_24h_change" plain_2f _ Hd2 Hc2 eq_refl F4)
    as (s4 & H4 & S4).
  exists s1, s2, s3, s4.
  repeat (split; [assumption|]).
  split.
  { apply Forall2_length in Hnews. rewrite <- Hnews, length_take. reflexivity. }
  assert (Hlines : mapM (headline w) (take 3 news) = Ok lines).
  { apply mapM_exc. eapply Forall2_impl; [exact Hnews|].
    intros item line. apply headline_line. }
  unfold build_prompt. rewrite H1, H2, H3, H4. simpl. rewrite Hlines.
  reflexivity.
Qed.

Lemma build_prompt_contents_witness :
  let nl := String "010"%char EmptyString in
  (∃ btc_usd btc_24h eth_usd eth_24h : string,
     shows btc_usd (VFloat 67000.5) ∧ shows btc_24h (VInt 2)
     ∧ shows eth_usd (VFloat 3500.125) ∧ shows eth_24h (VFloat (-0.25))
     ∧ length ["- a"; "- b"; "- c"] = Nat.min 3 (length six_posts)
     ∧ build_prompt steady round_quotes (VList six_posts)
       = Ok ("Analyze this cryptocurrency market data and provide a brief summary:"
             ++ nl ++ nl
             ++ "Price Data:" ++ nl
             ++ "- Bitcoin: $" ++ btc_usd ++ " (24h change: " ++ btc_24h ++ "%)" ++ nl
             ++ "- Ethereum: $" ++ eth_usd ++ " (24h change: " ++ eth_24h ++ "%)" ++ nl
             ++ nl
             ++ "Recent News Headlines:" ++ nl
             ++ String.concat nl ["- a"; "- b"; "- c"] ++ nl
             ++ nl
             ++ "Provide a concise analysis in 3-4 sentences covering:" ++ nl
             ++ "1. Key market movements" ++ nl
             ++ "2. Notable trends" ++ nl
             ++ "3. What to watch for" ++ nl
             ++ nl
             ++ "Be objective and data-driven."))
  (* the same prompt, its fields written out: six posts give three lines *)
  ∧ build_prompt steady round_quotes (VList six_posts)
    = Ok ("Analyze this cryptocurrency market data and provide a brief summary:"
          ++ nl ++ nl
          ++ "Price Data:" ++ nl
          ++ "- Bitcoin: $67,000.50 (24h change: 2.00%)" ++ nl
          ++ "- Ethereum: $3,500.12 (24h change: -0.25%)" ++ nl
          ++ nl
          ++ "Recent News Headlines:" ++ nl
          ++ "- a" ++ nl
          ++ "- b" ++ nl
          ++ "- c" ++ nl
          ++ nl
          ++ "Provide a concise analysis in 3-4 sentences covering:" ++ nl
          ++ "1. Key market movements" ++ nl
          ++ "2. Notable trends" ++ nl
          ++ "3. What to watch for" ++ nl
          ++ nl
          ++ "Be objective and data-driven.")
  (* what the four figures read back as, in hundredths *)
  ∧ read_figure "67,000.50" = Some 6700050
  ∧ read_figure "2.00" = Some 200
  ∧ read_figure "3,500.12" = Some 350012
  ∧ read_figure "-0.25" = Some (-25).
Proof.
  cbv zeta. split; [|repeat split; vm_compute; reflexivity].
  apply (build_prompt_contents steady round_quotes
           (VFloat 67000.5) (VInt 2) (VFloat 3500.125) (VFloat (-0.25))
           six_posts ["- a"; "- b"; "- c"]).
  - exists {[ "bitcoin" := quote (VFloat 67000.5) (VInt 2);
              "ethereum" := quote (VFloat 3500.125) (VFloat (-0.25)) ]},
      {[ "usd" := VFloat 67000.5; "usd_24h_change" := VInt 2 ]}.
    repeat split; vm_compute; reflexivity.
  - exists {[ "bitcoin" := quote (VFloat 67000.5) (VInt 2);
              "ethereum" := quote (VFloat 3500.125) (VFloat (-0.25)) ]},
      {[ "usd" := VFloat 3500.125; "usd_24h_change" := VFloat (-0.25) ]}.
    repeat split; vm_compute; reflexivity.
  - vm_compute; reflexivity.
  - vm_compute; reflexivity.
  - vm_compute; reflexivity.
  - vm_compute; reflexivity.
  - change (take 3 six_posts) with [post "a"; post "b"; post "c"].
    repeat constructor.
    + exists {[ "title" := VStr "a"; "source" := VDict {[ "title" := VStr "CoinDesk" ]};
                "published_at" := VStr "2025-01-01T00:00:00Z" ]}, (VStr "a").
      repeat split; vm_compute; reflexivity.
    + exists {[ "title" := VStr "b"; "source" := VDict {[ "title" := VStr "CoinDesk" ]};
                "published_at" := VStr "2025-01-01T00:00:00Z" ]}, (VStr "b").
      repeat split; vm_compute; reflexivity.
    + exists {[ "title" := VStr "c"; "source" := VDict {[ "title" := VStr "CoinDesk" ]};
                "published_at" := VStr "2025-01-01T00:00:00Z" ]}, (VStr "c").
      repeat split; vm_compute; reflexivity.
Defined.

End PromptFacts.

(** ** Facts about a whole run *)

Module RunFacts.
Import Py St App Spec Examples Cases FetchFacts AnalysisFacts.

Lemma outcome_bind {A B : Type} (m : script A) (k : A → script B) :
  outcome (m ≫= k)
  = match outcome m with
    | Ok a => outcome (k a)
    | Error e => Error e
    end.
Proof.
  destruct m as [t [a|e]]; simpl; [|reflexivity].
  destruct (k a); reflexivity.
Qed.

Lemma outcome_show (e : element) : outcome (show e) = Ok tt.
Proof. reflexivity. Qed.

Lemma outcome_eval {A : Type} (x : exc A) : outcome (eval x) = x.
Proof. reflexivity. Qed.

Lemma format_number (spec : format_spec) (v : value) :
  finite_number v = true → ∃ s, format spec v = Ok s.
Proof.
  unfold finite_number, format.
  destruct (as_number v) as [n|]; [|discriminate].
  destruct (float_of_number n) as [f|e]; [|discriminate].
  simpl. eauto.
Qed.

Lemma truthy_dict (d : gmap string value) (k : string) (v : value) :
  d !! k = Some v → truthy (VDict d) = true.
Proof.
  intros H. simpl. destruct (map_to_list d) eqn:E; [|reflexivity].
  apply map_to_list_empty_iff in E. subst d. rewrite lookup_empty in H. discriminate.
Qed.

Lemma price_card_well_formed (w : env) (d : gmap string value) (asset label : string)
    (q : value) :
  d !! asset = Some q →
  well_formed_quote q →
  ∃ change : float, outcome (price_card (VDict d) asset label) = Ok (VFloat change).
Proof.
  intros Hd (m & usd & change & -> & Husd & Hfin & Hchange & _).
  exists change. unfold price_card, figure.
  destruct (format_number comma_0f usd Hfin) as [s Hs].
  simpl. rewrite Hd. simpl. rewrite Hchange, Husd. simpl. rewrite Hs. reflexivity.
Qed.

Lemma get_ai_analysis_returns (w : env) (p n : value) :
  ∃ s, outcome (get_ai_analysis w p n) = Ok s.
Proof. rewrite get_ai_analysis_eq. simpl. eauto. Qed.

(** With no news, the presentation completes when there are no prices or
    the prices are those of the data model. *)
Lemma present_without_news (w : env) (prices : value) :
  truthy prices = false ∨ well_formed_quotes prices →
  outcome (present w prices (VList [])) = Ok tt.
Proof.
  intros [H|(d & btc & eth & -> & Hbtc & Wbtc & Heth & Weth)].
  { rewrite present_no_data by assumption. reflexivity. }
  unfold present. rewrite (truthy_dict d _ _ Hbtc).
  rewrite outcome_bind.
  assert (outcome (render w (VDict d) (VList [])) = Ok tt) as ->; [|reflexivity].
  unfold render.
  destruct (price_card_well_formed w d "bitcoin" "Bitcoin (BTC)" btc Hbtc Wbtc) as [c1 H1].
  destruct (price_card_well_formed w d "ethereum" "Ethereum (ETH)" eth Heth Weth) as [c2 H2].
  destruct (get_ai_analysis_returns w (VDict d) (VList [])) as [s Hs].
  assert (Havg : avg_change (VFloat c1) (VFloat c2) = Ok ((c1 + c2) / 2)%float)
    by reflexivity.
  repeat first
    [ rewrite outcome_bind, outcome_show; cbv beta iota
    | rewrite outcome_bind, outcome_eval; cbv beta iota
    | rewrite outcome_bind, H1; cbv beta iota
    | rewrite outcome_bind, H2; cbv beta iota
    | rewrite outcome_bind, Hs; cbv beta iota
    | rewrite Havg; cbv beta iota
    | progress change (format plain_2f (VFloat ?f)) with (Ok (A:=string) (E:=exn) (format_float plain_2f f));
      cbv beta iota ].
  reflexivity.
Qed.

(** C6. The news fetch asks the news provider once, with the token in the
    address.  When the request raises (network, authentication) or the
    body is not JSON, it shows the failure and returns the empty list.
    When the provider answers with a JSON object that has no results (as
    it does to a token it rejects: the status is never read), it returns
    the empty list and shows nothing.  When the object holds a list of
    results, it returns the first five, in the provider's order.  In every
    case it returns, and what it returns is a sequence of at most five
    items.  With the empty list the run still completes, when there is no
    price data or the price data is that of the data model. *)
Theorem get_crypto_news_degrades (w : env) :
  let request :=
    {| url := "https://cryptopanic.com/api/v1/posts/?auth_token="
              ++ CRYPTOPANIC_KEY w ++ "&public=true";
       params := [];
       headers := [] |} in
  let shown_and_empty (e : exn) :=
    get_crypto_news w
    = ([HttpGet request; Show (st_error ("Error fetching news: " ++ exn_str e))],
       Ok (VList [])) in
  (∀ e : exn, requests_get w request = Error e → shown_and_empty e)
  ∧ (∀ (r : response) (e : exn),
       requests_get w request = Ok r → json r = Error e → shown_and_empty e)
  ∧ (∀ (r : response) (d : gmap string value),
       requests_get w request = Ok r →
       json r = Ok (VDict d) →
       d !! "results" = None →
       get_crypto_news w = ([HttpGet request], Ok (VList [])))
  ∧ (∀ (r : response) (d : gmap string value) (items : list value),
       requests_get w request = Ok r →
       json r = Ok (VDict d) →
       d !! "results" = Some (VList items) →
       get_crypto_news w = ([HttpGet request], Ok (VList (take 5 items))))
  ∧ (∃ (t : list event) (news : value),
       get_crypto_news w = (t, Ok news)
       ∧ ((∃ items : list value, news = VList items ∧ (length items ≤ 5)%nat)
          ∨ (∃ s : string, news = VStr s ∧ (String.length s ≤ 5)%nat)))
  ∧ (∀ (t tp : list event) (prices : value),
       get_crypto_news w = (t, Ok (VList [])) →
       get_crypto_prices w = (tp, Ok prices) →
       truthy prices = false ∨ well_formed_quotes prices →
       outcome (main w) = Ok tt).
Proof.
  change {| url := "https://cryptopanic.com/api/v1/posts/?auth_token="
                   ++ CRYPTOPANIC_KEY w ++ "&public=true";
            params := []; headers := [] |} with (news_request w).
  cbv zeta.
  split.
  { intros e He. rewrite get_crypto_news_eq, fetch_news_eq. simpl.
    rewrite He. reflexivity. }
  split.
  { intros r e Hr Hj. rewrite get_crypto_news_eq, fetch_news_eq. simpl.
    rewrite Hr. simpl. unfold top_five. rewrite Hj. reflexivity. }
  split.
  { intros r d Hr Hj Hd. rewrite get_crypto_news_eq, fetch_news_eq. simpl.
    rewrite Hr. simpl. unfold top_five. rewrite Hj. simpl. rewrite Hd.
    reflexivity. }
  split.
  { intros r d items Hr Hj Hd. rewrite get_crypto_news_eq, fetch_news_eq. simpl.
    rewrite Hr. simpl. unfold top_five. rewrite Hj. simpl. rewrite Hd.
    reflexivity. }
  split.
  { rewrite get_crypto_news_eq, fetch_news_eq. simpl.
    assert (Hempty : ∀ t : list event,
              ∃ (t' : list event) (news : value),
                (t, Ok (VList [])) = (t', Ok (E:=exn) news)
                ∧ ((∃ items : list value, news = VList items ∧ (length items ≤ 5)%nat)
                   ∨ (∃ s : string, news = VStr s ∧ (String.length s ≤ 5)%nat))).
    { intros t. exists t, (VList []). split; [reflexivity|].
      left. exists []. split; [reflexivity|]. simpl. lia. }
    destruct (requests_get w (news_request w)) as [r|e]; simpl; [|apply Hempty].
    unfold top_five. destruct (json r) as [data|e]; simpl; [|apply Hempty].
    destruct (dict_get data "results" (VList [])) as [res|e]; simpl; [|apply Hempty].
    destruct res; simpl; try apply Hempty.
    - eexists _, _. split; [reflexivity|]. right. eexists. split; [reflexivity|].
      apply length_substring.
    - eexists _, _. split; [reflexivity|]. left. eexists. split; [reflexivity|].
      rewrite length_take. lia. }
  intros t tp prices Hn Hp Hprices.
  rewrite (main_unfold w _ _ _ _ Hp Hn). apply present_without_news, Hprices.
Qed.

Lemma get_crypto_news_degrades_witness :
  let request :=
    {| url := "https://cryptopanic.com/api/v1/posts/?auth_token=cp-key&public=true";
       params := [];
       headers := [] |} in
  (* the request raises *)
  get_crypto_news news_down
  = ([HttpGet request; Show (st_error "Error fetching news: Connection refused")],
     Ok (VList []))
  (* the body is not JSON *)
  ∧ get_crypto_news news_garbled
    = ([HttpGet request;
        Show (st_error
          "Error fetching news: Expecting value: line 1 column 1 (char 0)")],
       Ok (VList []))
  (* the token is rejected *)
  ∧ get_crypto_news news_rejected = ([HttpGet request], Ok (VList []))
  (* six posts are answered *)
  ∧ get_crypto_news steady
    = ([HttpGet request],
       Ok (VList [post "a"; post "b"; post "c"; post "d"; post "e"]))
  (* the run with the rejected token completes *)
  ∧ outcome (main news_rejected) = Ok tt.
Proof.
  cbv zeta.
  split.
  { destruct (get_crypto_news_degrades news_down) as (H & _).
    apply (H (Exn RequestException "Connection refused")). reflexivity. }
  split.
  { destruct (get_crypto_news_degrades news_garbled) as (_ & H & _).
    apply (H garbled (Exn JSONDecodeError "Expecting value: line 1 column 1 (char 0)"));
      reflexivity. }
  split.
  { destruct (get_crypto_news_degrades news_rejected) as (_ & _ & H & _).
    apply (H token_rejected
             {[ "status" := VStr "Incomplete"; "info" := VStr "Token not found" ]});
      vm_compute; reflexivity. }
  split.
  { destruct (get_crypto_news_degrades steady) as (_ & _ & _ & H & _).
    apply (H (Response 200 (Ok posts)) {[ "results" := VList six_posts ]} six_posts);
      vm_compute; reflexivity. }
  destruct (get_crypto_news_degrades news_rejected) as (_ & _ & _ & _ & _ & H).
  apply (H [HttpGet (news_request news_rejected)]
           [HttpGet (prices_request news_rejected)] quotes);
    [vm_compute; reflexivity | vm_compute; reflexivity |].
  right.
  exists {[ "bitcoin" := quote (VFloat 67000.5) (VFloat 2.5);
            "ethereum" := quote (VInt 3500) (VFloat (-0.25)) ]},
    (quote (VFloat 67000.5) (VFloat 2.5)), (quote (VInt 3500) (VFloat (-0.25))).
  split; [reflexivity|].
  split; [vm_compute; reflexivity|].
  split.
  { exists {[ "usd" := VFloat 67000.5; "usd_24h_change" := VFloat 2.5 ]},
      (VFloat 67000.5), 2.5%float.
    repeat split; vm_compute; reflexivity. }
  split; [vm_compute; reflexivity|].
  exists {[ "usd" := VInt 3500; "usd_24h_change" := VFloat (-0.25) ]},
    (VInt 3500), (-0.25)%float.
  repeat split; vm_compute; reflexivity.
Defined.

Lemma no_data_falsy (body : value) : no_data body → truthy body = false.
Proof.
  intros [->|[->|[->|[(f & -> & Hf)|[->|[->| ->]]]]]]; try reflexivity.
  simpl. rewrite Hf. reflexivity.
Qed.

(** C8. In a run that executes both fetches, the news provider answers
    with a list of posts.  When the price fetch raises (the request or the
    decoding of its body), the run shows the error of the price fetch,
    asks for the news, and then shows one top-level error and the footer,
    nothing else.  When the price provider
    answers with a body that holds no data, the run asks for the news and
    shows the one top-level error and the footer, nothing else.  In
    neither case is there a metric, a sentiment, a call to the text
    generator, a summary, or anything of the posts that were fetched. *)
Theorem no_prices_is_aggregate_failure (w : env) (answer : response)
    (d : gmap string value) (posts : list value) :
  let prices_request :=
    {| url := "https://api.coingecko.com/api/v3/simple/price";
       params := [("ids", "bitcoin,ethereum"); ("vs_currencies", "usd");
                  ("include_24hr_change", "true")];
       headers := [("x-cg-demo-api-key", COINGECKO_KEY w)] |} in
  let news_request :=
    {| url := "https://cryptopanic.com/api/v1/posts/?auth_token="
              ++ CRYPTOPANIC_KEY w ++ "&public=true";
       params := [];
       headers := [] |} in
  let failure :=
    [Show (st_error
       "Unable to fetch cryptocurrency data. Please check your API keys.");
     Show (st_markdown "---");
     Show (st_caption
       "Data provided by CoinGecko • News from CryptoPanic • AI Analysis by Claude")] in
  requests_get w news_request = Ok answer →
  json answer = Ok (VDict d) →
  d !! "results" = Some (VList posts) →
  (∀ e : exn,
     requests_get w prices_request = Error e
     ∨ (∃ r : response, requests_get w prices_request = Ok r ∧ json r = Error e) →
     main w
     = ((Show (st_spinner "Fetching latest data...")
         :: HttpGet prices_request
         :: Show (st_error ("Error fetching prices: " ++ exn_str e))
         :: HttpGet news_request
         :: failure)%list,
        Ok tt))
  ∧ (∀ (r : response) (body : value),
       requests_get w prices_request = Ok r →
       json r = Ok body →
       no_data body →
       main w
       = ((Show (st_spinner "Fetching latest data...")
           :: HttpGet prices_request
           :: HttpGet news_request
           :: failure)%list,
          Ok tt)).
Proof.
  change {| url := "https://cryptopanic.com/api/v1/posts/?auth_token="
                   ++ CRYPTOPANIC_KEY w ++ "&public=true";
            params := []; headers := [] |} with (news_request w).
  change {| url := "https://api.coingecko.com/api/v3/simple/price";
            params := [("ids", "bitcoin,ethereum"); ("vs_currencies", "usd");
                       ("include_24hr_change", "true")];
            headers := [("x-cg-demo-api-key", COINGECKO_KEY w)] |}
    with (prices_request w).
  cbv zeta. intros Hr Hj Hd.
  assert (Hn : get_crypto_news w
               = ([HttpGet (news_request w)], Ok (VList (take 5 posts)))).
  { rewrite get_crypto_news_eq, fetch_news_eq. simpl. rewrite Hr. simpl.
    unfold top_five. rewrite Hj. simpl. rewrite Hd. reflexivity. }
  split.
  - intros e He.
    assert (Hp : get_crypto_prices w
                 = ([HttpGet (prices_request w);
                     Show (st_error ("Error fetching prices: " ++ exn_str e))],
                    Ok VNone)).
    { rewrite get_crypto_prices_eq, fetch_prices_eq. simpl.
      destruct He as [He|(r & He & Hjson)]; rewrite He; simpl;
        [|rewrite Hjson]; reflexivity. }
    rewrite (main_unfold w _ _ _ _ Hp Hn), present_no_data by reflexivity.
    reflexivity.
  - intros r body Hget Hjson Hbody.
    assert (Hp : get_crypto_prices w = ([HttpGet (prices_request w)], Ok body)).
    { rewrite get_crypto_prices_eq, fetch_prices_eq. simpl.
      rewrite Hget. simpl. rewrite Hjson. reflexivity. }
    rewrite (main_unfold w _ _ _ _ Hp Hn), present_no_data
      by (apply no_data_falsy, Hbody).
    reflexivity.
Qed.

Lemma no_prices_is_aggregate_failure_witness :
  let prices_request :=
    {| url := "https://api.coingecko.com/api/v3/simple/price";
       params := [("ids", "bitcoin,ethereum"); ("vs_currencies", "usd");
                  ("include_24hr_change", "true")];
       headers := [("x-cg-demo-api-key", "cg-key")] |} in
  let news_request :=
    {| url := "https://cryptopanic.com/api/v1/posts/?auth_token=cp-key&public=true";
       params := [];
       headers := [] |} in
  (* the price request raises *)
  main prices_down
  = ([Show (st_spinner "Fetching latest data...");
      HttpGet prices_request;
      Show (st_error "Error fetching prices: Connection refused");
      HttpGet news_request;
      Show (st_error
        "Unable to fetch cryptocurrency data. Please check your API keys.");
      Show (st_markdown "---");
      Show (st_caption
        "Data provided by CoinGecko • News from CryptoPanic • AI Analysis by Claude")],
     Ok tt)
  (* the price provider answers an empty object *)
  ∧ main prices_empty
    = ([Show (st_spinner "Fetching latest data...");
        HttpGet prices_request;
        HttpGet news_request;
        Show (st_error
          "Unable to fetch cryptocurrency data. Please check your API keys.");
        Show (st_markdown "---");
        Show (st_caption
          "Data provided by CoinGecko • News from CryptoPanic • AI Analysis by Claude")],
       Ok tt).
Proof.
  cbv zeta. split.
  - destruct (no_prices_is_aggregate_failure prices_down
                (Response 200 (Ok posts)) {[ "results" := VList six_posts ]} six_posts)
      as (H & _); [vm_compute; reflexivity ..|].
    apply (H (Exn RequestException "Connection refused")). left. reflexivity.
  - destruct (no_prices_is_aggregate_failure prices_empty
                (Response 200 (Ok posts)) {[ "results" := VList six_posts ]} six_posts)
      as (_ & H); [vm_compute; reflexivity ..|].
    apply (H (Response 200 (Ok (VDict ∅))) (VDict ∅)); [reflexivity ..|].
    do 6 right. reflexivity.
Defined.

(** C3, at the input where the code departs from it: the price provider
    rejects the key with status 401 and a JSON body that describes the
    error.  The fetch shows no error and returns that body, which is
    truthy and has no entry for either asset. *)
Theorem rejected_key_body_is_returned :
  status_code rejected = 401
  ∧ get_crypto_prices rejected_key
    = ([HttpGet (prices_request rejected_key)], json rejected)
  ∧ ∃ body : value,
      json rejected = Ok body
      ∧ truthy body = true
      ∧ subscript body "bitcoin" = raise KeyError "'bitcoin'"
      ∧ subscript body "ethereum" = raise KeyError "'ethereum'".
Proof.
  split; [reflexivity|]. split; [vm_compute; reflexivity|].
  eexists. split; [reflexivity|].
  repeat split; vm_compute; reflexivity.
Qed.

(** C4, at the input where the code departs from it: with the same answer
    of the price provider the run ends in an uncaught KeyError at line
    103, after the two requests, and shows no error. *)
Theorem rejected_key_run_raises :
  main rejected_key
  = ([Show (st_spinner "Fetching latest data...");
      HttpGet (prices_request rejected_key);
      HttpGet (news_request rejected_key);
      Show (st_columns 4)],
     raise KeyError "'bitcoin'").
Proof. vm_compute. reflexivity. Qed.

End RunFacts.

(** ** Further facts: what a run does outside *)

Module OutsideFacts.
Import Py St App Spec Examples Outside Cache FetchFacts AnalysisFacts RunFacts.

Lemma trace_bind {A B : Type} (m : script A) (k : A → script B) :
  trace (m ≫= k)
  = (trace m ++ match outcome m with
                | Ok a => trace (k a)
                | Error _ => []
                end)%list.
Proof.
  destruct m as [t [a|e]]; simpl; [|now rewrite app_nil_r].
  destruct (k a); reflexivity.
Qed.

Lemma externals_app (t t' : list event) :
  externals (t ++ t') = (externals t ++ externals t')%list.
Proof. unfold externals. apply List.filter_app. Qed.

Lemma trace_eval {A : Type} (x : exc A) : trace (eval x) = [].
Proof. reflexivity. Qed.

Lemma trace_show (e : element) : trace (show e) = [Show e].
Proof. reflexivity. Qed.

Lemma externals_show (e : element) (t : list event) :
  externals (Show e :: t) = externals t.
Proof. reflexivity. Qed.

(** Stepping through a sequence of statements that only show. *)
Ltac quiet_step :=
  first
    [ rewrite trace_bind, externals_app
    | rewrite trace_eval
    | rewrite trace_show
    | rewrite outcome_eval
    | rewrite outcome_show
    | match goal with
      | |- context [match ?x with _ => _ end] => destruct x
      end ];
  cbv beta iota.

Lemma price_card_externals (prices : value) (asset label : string) :
  externals (trace (price_card prices asset label)) = [].
Proof. unfold price_card. repeat quiet_step; reflexivity. Qed.

Lemma news_item_externals (w : env) (item : value) :
  externals (trace (news_item w item)) = [].
Proof. unfold news_item. repeat quiet_step; reflexivity. Qed.

Lemma for_each_externals (w : env) (items : list value) :
  externals (trace (for_each items (news_item w))) = [].
Proof.
  induction items as [|item items IH]; [reflexivity|].
  simpl for_each. rewrite trace_bind, externals_app, news_item_externals.
  destruct (outcome (news_item w item)); [exact IH|reflexivity].
Qed.

Lemma news_section_externals (w : env) (news : value) :
  externals (trace (news_section w news)) = [].
Proof.
  unfold news_section. destruct (truthy news); [|reflexivity].
  rewrite trace_bind, externals_app, trace_eval, outcome_eval.
  destruct (iterate news); [apply for_each_externals|reflexivity].
Qed.

Lemma get_ai_analysis_externals (w : env) (p n : value) :
  externals (trace (get_ai_analysis w p n))
  = match build_prompt w p n with
    | Ok prompt => [MessagesCreate (ANTHROPIC_KEY w) (analysis_params prompt)]
    | Error _ => []
    end.
Proof.
  rewrite get_ai_analysis_eq, request_analysis_eq.
  destruct (build_prompt w p n); reflexivity.
Qed.

Lemma render_externals (w : env) (prices news : value) :
  externals (trace (render w prices news)) = []
  ∨ externals (trace (render w prices news))
    = externals (trace (get_ai_analysis w prices news)).
Proof.
  unfold render.
  rewrite trace_bind, externals_app, trace_show, outcome_show. cbv beta iota.
  rewrite trace_bind, externals_app, price_card_externals.
  destruct (outcome (price_card prices "bitcoin" "Bitcoin (BTC)")) as [c1|];
    [|left; reflexivity].
  rewrite trace_bind, externals_app, price_card_externals.
  destruct (outcome (price_card prices "ethereum" "Ethereum (ETH)")) as [c2|];
    [|left; reflexivity].
  rewrite trace_bind, externals_app, trace_eval, outcome_eval.
  destruct (avg_change c1 c2) as [avg|]; [|left; reflexivity].
  rewrite trace_bind, externals_app, trace_eval, outcome_eval.
  destruct (format plain_2f (VFloat avg)) as [delta|]; [|left; reflexivity].
  do 4 (rewrite trace_bind, externals_app, trace_show, outcome_show; cbv beta iota).
  rewrite trace_bind, externals_app.
  destruct (outcome (get_ai_analysis w prices news)) as [analysis|];
    [|right; simpl; now rewrite app_nil_r].
  do 3 (rewrite trace_bind, externals_app, trace_show, outcome_show; cbv beta iota).
  rewrite news_section_externals.
  right. simpl. now rewrite app_nil_r.
Qed.

Lemma present_externals (w : env) (prices news : value) :
  externals (trace (present w prices news)) = []
  ∨ (truthy prices = true
     ∧ externals (trace (present w prices news))
       = externals (trace (get_ai_analysis w prices news))).
Proof.
  unfold present. rewrite trace_bind, externals_app.
  destruct (truthy prices).
  - assert (Hfoot : ∀ r : exc unit,
              externals match r with
                        | Ok _ => trace (footer, Ok tt)
                        | Error _ => []
                        end = []).
    { intros [|]; reflexivity. }
    rewrite Hfoot, app_nil_r.
    destruct (render_externals w prices news) as [H|H]; [left|right]; auto.
  - left. reflexivity.
Qed.

(** What is replayed from the cache reaches no provider. *)
Lemma externals_shown (shown : list element) : externals (Show <$> shown) = [].
Proof.
  induction shown as [|e shown IH]; [reflexivity|].
  change (Show <$> e :: shown) with (Show e :: (Show <$> shown)).
  now rewrite externals_show.
Qed.

Lemma cache_data_returns (live : option entry) (body : script value)
    (request : http_request) :
  (∃ (t : list event) (v : value),
     body = (t, Ok v) ∧ externals t = [HttpGet request]) →
  ∃ (t : list event) (v : value),
    cache_data live body = (t, Ok v)
    ∧ externals t = match live with
                    | Some _ => []
                    | None => [HttpGet request]
                    end.
Proof.
  intros H. destruct live as [[shown v]|]; [|exact H].
  exists (Show <$> shown), v. split; [reflexivity|apply externals_shown].
Qed.

Lemma get_crypto_prices_reaches (w : env) :
  ∃ (t : list event) (v : value),
    get_crypto_prices w = (t, Ok v) ∧ externals t = [HttpGet (prices_request w)].
Proof.
  rewrite get_crypto_prices_eq.
  destruct (outcome (fetch_prices w)); eexists _, _; split; reflexivity.
Qed.

Lemma get_crypto_news_reaches (w : env) :
  ∃ (t : list event) (v : value),
    get_crypto_news w = (t, Ok v) ∧ externals t = [HttpGet (news_request w)].
Proof.
  rewrite get_crypto_news_eq.
  destruct (outcome (fetch_news w)); eexists _, _; split; reflexivity.
Qed.

(** With nothing in the cache, the run is the pipeline itself. *)
Lemma run_cold (w : env) : run cold w = main w.
Proof. reflexivity. Qed.

(** What a run reaches, given what the cache holds. *)
Lemma run_reaches (c : cache) (w : env) :
  ∃ tail : list event,
    externals (trace (run c w))
    = (match live_prices c with
       | Some _ => []
       | None => [HttpGet (prices_request w)]
       end
       ++ match live_news c with
          | Some _ => []
          | None => [HttpGet (news_request w)]
          end
       ++ tail)%list
    ∧ (tail = []
       ∨ ∃ prompt : string,
           tail = [MessagesCreate (ANTHROPIC_KEY w) (analysis_params prompt)]).
Proof.
  destruct (cache_data_returns (live_prices c) _ _ (get_crypto_prices_reaches w))
    as (tp & prices & Hp & Htp).
  destruct (cache_data_returns (live_news c) _ _ (get_crypto_news_reaches w))
    as (tn & news & Hn & Htn).
  assert (Hrun : run c w
                 = ((Show (st_spinner "Fetching latest data...") :: tp ++ tn
                     ++ trace (present w prices news))%list,
                    outcome (present w prices news))).
  { unfold run. rewrite Hp, Hn. simpl.
    destruct (present w prices news) as [t r]. reflexivity. }
  rewrite Hrun. simpl trace.
  rewrite externals_show, !externals_app, Htp, Htn.
  exists (externals (trace (present w prices news))).
  split; [reflexivity|].
  destruct (present_externals w prices news) as [H|[_ H]]; [left; exact H|].
  rewrite H, get_ai_analysis_externals.
  destruct (build_prompt w prices news) as [prompt|]; [right; eauto|left; reflexivity].
Qed.

(** X1. Whatever the providers do, a run reaches outside in one way: the
    price request, unless the cache holds a live result of the price fetch;
    then the news request, unless the cache holds a live result of the news
    fetch; then at most one call to the text generator, made with the
    Anthropic key, the model claude-sonnet-4-20250514, at most 500 tokens
    and one user message.  There is no other request and no retry; a run
    with both results cached makes no request at all. *)
Theorem run_externals (c : cache) (w : env) :
  ∃ tail : list event,
    externals (trace (run c w))
    = (match live_prices c with
       | Some _ => []
       | None =>
           [HttpGet
              {| url := "https://api.coingecko.com/api/v3/simple/price";
                 params := [("ids", "bitcoin,ethereum"); ("vs_currencies", "usd");
                            ("include_24hr_change", "true")];
                 headers := [("x-cg-demo-api-key", COINGECKO_KEY w)] |}]
       end
       ++ match live_news c with
          | Some _ => []
          | None =>
              [HttpGet
                 {| url := "https://cryptopanic.com/api/v1/posts/?auth_token="
                           ++ CRYPTOPANIC_KEY w ++ "&public=true";
                    params := [];
                    headers := [] |}]
          end
       ++ tail)%list
    ∧ (tail = []
       ∨ ∃ prompt : string,
           tail = [MessagesCreate (ANTHROPIC_KEY w)
                     {| model := "claude-sonnet-4-20250514";
                        max_tokens := 500;
                        messages := [("user", prompt)] |}]).
Proof. exact (run_reaches c w). Qed.

End OutsideFacts.

(** ** Further facts: the sentiment card *)

Module SentimentMore.
Import Py St App Spec Examples Outside.

Lemma SFadd_comm (x y : spec_float) : SF64add x y = SF64add y x.
Proof.
  unfold SF64add, SFadd.
  destruct x as [sx|sx| |sx mx ex], y as [sy|sy| |sy my ey];
    try reflexivity;
    try (destruct sx, sy; reflexivity).
  rewrite (Z.min_comm ex ey). f_equal. apply Z.add_comm.
Qed.

Lemma float_add_comm (x y : float) : (x + y)%float = (y + x)%float.
Proof.
  rewrite <- (SF2Prim_Prim2SF (x + y)), <- (SF2Prim_Prim2SF (y + x)).
  now rewrite !add_spec, SFadd_comm.
Qed.

Lemma add_comm_numbers (a b : value) :
  is_number a = true → is_number b = true → add a b = add b a.
Proof.
  unfold is_number, add.
  destruct (as_number a) as [[x|x]|], (as_number b) as [[y|y]|];
    try discriminate; intros _ _; simpl.
  - now rewrite Z.add_comm.
  - destruct (float_of_int x); simpl; [|reflexivity]. now rewrite float_add_comm.
  - destruct (float_of_int y); simpl; [|reflexivity]. now rewrite float_add_comm.
  - now rewrite float_add_comm.
Qed.

(** X2. The sentiment does not depend on which of the two changes is
    bitcoin's: for any two numbers (int, bool or float), swapping them
    gives the same label, or the same exception. *)
Theorem market_sentiment_symmetric (a b : value) :
  is_number a = true →
  is_number b = true →
  market_sentiment a b = market_sentiment b a.
Proof.
  intros Ha Hb. unfold market_sentiment, avg_change.
  now rewrite (add_comm_numbers a b Ha Hb).
Qed.

Lemma market_sentiment_symmetric_witness :
  market_sentiment (VInt 5) (VFloat (-0.5)) = market_sentiment (VFloat (-0.5)) (VInt 5).
Proof. apply market_sentiment_symmetric; reflexivity. Defined.

Lemma SFeqb_refl_not_nan (x : spec_float) : SFeqb x x = false → x = S754_nan.
Proof.
  unfold SFeqb. destruct x as [s|s| |s m e]; simpl; try discriminate; try reflexivity.
  - destruct s; discriminate.
  - rewrite Z.compare_refl.
    change (PosDef.Pos.compare_cont Eq m m) with (Pos.compare m m).
    rewrite Pos.compare_refl. destruct s; discriminate.
Qed.

Lemma gt_int_nan (avg : float) (k : Z) : is_nan avg = true → gt_int avg k = false.
Proof.
  unfold is_nan, gt_int. rewrite FloatAxioms.eqb_spec, ltb_spec. intros H.
  apply negb_true_iff, SFeqb_refl_not_nan in H. rewrite H.
  unfold SFltb. destruct (Prim2SF (nearest_float k 0)); reflexivity.
Qed.

(** X3. An average that is not a number (the provider sent NaN, or the two
    changes are infinite with opposite signs) passes none of the three
    comparisons, so the card shows Fear. *)
Theorem nan_average_is_fear (a b : value) (avg : float) :
  avg_change a b = Ok avg →
  is_nan avg = true →
  market_sentiment a b = Ok (label_text Fear).
Proof.
  intros Havg Hnan. unfold market_sentiment. rewrite Havg. simpl.
  unfold sentiment. now rewrite !gt_int_nan.
Qed.

Lemma nan_average_is_fear_witness :
  market_sentiment (VFloat infinity) (VFloat neg_infinity) = Ok (label_text Fear).
Proof.
  apply (nan_average_is_fear (VFloat infinity) (VFloat neg_infinity) nan);
    reflexivity.
Defined.

End SentimentMore.

(** ** Further facts: the news section and the prompt *)

Module NewsFacts.
Import Py St App Spec Examples Outside FetchFacts AnalysisFacts RunFacts.

Lemma news_item_fields (w : env) (item : value) (f : value * value * value) :
  post_fields item = Ok f →
  news_item w item = (post_layout (repr w) f, Ok tt).
Proof.
  unfold post_fields, news_item. intros H.
  destruct (subscript item "title") as [title|]; simpl in *; [|discriminate].
  destruct (subscript item "source") as [source|]; simpl in *; [|discriminate].
  destruct (subscript source "title") as [source_title|]; simpl in *; [|discriminate].
  destruct (subscript item "published_at") as [published_at|]; simpl in *;
    [|discriminate].
  injection H as <-. reflexivity.
Qed.

Lemma news_item_error (w : env) (item : value) (e : exn) :
  post_fields item = Error e →
  ∃ partial : list event,
    news_item w item = ((Show st_container :: partial)%list, Error e)
    ∧ (length partial ≤ 1)%nat.
Proof.
  unfold post_fields, news_item. intros H.
  destruct (subscript item "title") as [title|]; simpl in *;
    [|injection H as <-; exists []; split; [reflexivity|simpl; lia]].
  destruct (subscript item "source") as [source|]; simpl in *;
    [|injection H as <-; eexists [_]; split; [reflexivity|simpl; lia]].
  destruct (subscript source "title") as [source_title|]; simpl in *;
    [|injection H as <-; eexists [_]; split; [reflexivity|simpl; lia]].
  destruct (subscript item "published_at") as [published_at|]; simpl in *;
    [discriminate|].
  injection H as <-. eexists [_]; split; [reflexivity|simpl; lia].
Qed.

(** The loop over posts that all have their fields, followed by others. *)
Lemma for_each_good (w : env) (items : list value)
    (fields : list (value * value * value)) (rest : list value) :
  Forall2 (fun item f => post_fields item = Ok f) items fields →
  for_each (items ++ rest) (news_item w)
  = ((concat (post_layout (repr w) <$> fields)
      ++ trace (for_each rest (news_item w)))%list,
     outcome (for_each rest (news_item w))).
Proof.
  induction 1 as [|item f items fields Hf _ IH].
  - simpl. destruct (for_each rest (news_item w)); reflexivity.
  - change (for_each ((item :: items) ++ rest) (news_item w))
      with (news_item w item ;; for_each (items ++ rest) (news_item w)).
    rewrite (news_item_fields w item f Hf), IH.
    destruct f as [[title source_title] published_at]. reflexivity.
Qed.

Lemma concat_layout_length (repr : value → string)
    (fields : list (value * value * value)) :
  length (concat (post_layout repr <$> fields)) = (4 * length fields)%nat.
Proof.
  induction fields as [|[[t s] p] fields IH]; [reflexivity|].
  change (concat (post_layout repr <$> (t, s, p) :: fields))
    with (post_layout repr (t, s, p) ++ concat (post_layout repr <$> fields))%list.
  rewrite length_app, IH. simpl. lia.
Qed.

(** X4. A non-empty list of posts that each have a title, a source with a
    title and a publication time is shown whole and in order, four
    elements a post (container, title in bold, source and time, rule), and
    the section does not raise. *)
Theorem news_section_layout (w : env) (items : list value)
    (fields : list (value * value * value)) :
  truthy (VList items) = true →
  Forall2 (fun item f => post_fields item = Ok f) items fields →
  news_section w (VList items)
  = (concat (post_layout (repr w) <$> fields), Ok tt)
  ∧ length (trace (news_section w (VList items))) = (4 * length items)%nat.
Proof.
  intros Hne Hall.
  assert (H : news_section w (VList items)
              = (concat (post_layout (repr w) <$> fields), Ok tt)).
  { unfold news_section. rewrite Hne.
    change (items0 ← eval (iterate (VList items)); for_each items0 (news_item w))
      with (let '(t', r) := for_each items (news_item w) in (([] ++ t')%list, r)).
    rewrite <- (app_nil_r items), (for_each_good w items fields [] Hall).
    simpl. now rewrite app_nil_r. }
  split; [exact H|].
  rewrite H. simpl. rewrite concat_layout_length.
  now rewrite (Forall2_length _ _ _ Hall).
Qed.

Lemma news_section_layout_witness :
  news_section steady (VList six_posts)
  = (concat (post_layout (repr steady)
               <$> ((fun t => (VStr t, VStr "CoinDesk", VStr "2025-01-01T00:00:00Z"))
                      <$> ["a"; "b"; "c"; "d"; "e"; "f"])), Ok tt)
  ∧ length (trace (news_section steady (VList six_posts)))
    = (4 * length six_posts)%nat.
Proof.
  apply news_section_layout; [reflexivity|].
  repeat constructor.
Defined.

(** X5. The first post that lacks one of these fields ends the section
    with the exception of that lookup, uncaught: the posts before it are
    shown in full, of the post itself the container and at most its title,
    and nothing of the posts after it. *)
Theorem news_section_stops_at_bad_post (w : env) (good : list value)
    (fields : list (value * value * value)) (bad : value) (rest : list value)
    (e : exn) :
  Forall2 (fun item f => post_fields item = Ok f) good fields →
  post_fields bad = Error e →
  ∃ partial : list event,
    news_section w (VList (good ++ bad :: rest))
    = ((concat (post_layout (repr w) <$> fields) ++ Show st_container :: partial)%list,
       Error e)
    ∧ (length partial ≤ 1)%nat.
Proof.
  intros Hgood Hbad.
  destruct (news_item_error w bad e Hbad) as (partial & Hitem & Hlen).
  exists partial. split; [|exact Hlen].
  unfold news_section.
  assert (truthy (VList (good ++ bad :: rest)) = true) as ->.
  { destruct good; reflexivity. }
  change (items ← eval (iterate (VList (good ++ bad :: rest)));
          for_each items (news_item w))
    with (let '(t', r) := for_each (good ++ bad :: rest) (news_item w) in
          (([] ++ t')%list, r)).
  rewrite (for_each_good w good fields (bad :: rest) Hgood).
  change (for_each (bad :: rest) (news_item w))
    with (news_item w bad ;; for_each rest (news_item w)).
  rewrite Hitem. reflexivity.
Qed.

Lemma news_section_stops_at_bad_post_witness :
  ∃ partial : list event,
    news_section steady
      (VList ([post "a"] ++ VDict {[ "title" := VStr "b" ]} :: [post "c"]))
    = ((concat (post_layout (repr steady)
                  <$> [(VStr "a", VStr "CoinDesk", VStr "2025-01-01T00:00:00Z")])
        ++ Show st_container :: partial)%list,
       raise KeyError "'source'")
    ∧ (length partial ≤ 1)%nat.
Proof.
  apply (news_section_stops_at_bad_post steady [post "a"]
           [(VStr "a", VStr "CoinDesk", VStr "2025-01-01T00:00:00Z")]
           (VDict {[ "title" := VStr "b" ]}) [post "c"]
           (Exn KeyError "'source'")).
  - repeat constructor.
  - reflexivity.
Defined.

End NewsFacts.

(** ** Further facts: the analysis within a run *)

Module RobustFacts.
Import Py St App Spec Examples Outside FetchFacts AnalysisFacts RunFacts NewsFacts.

(** X6. The analysis reads the first three news items and nothing beyond:
    cutting the list after the third item changes neither the prompt that
    is sent nor the result, so a malformed fourth or fifth post cannot
    turn the analysis into the fallback. *)
Theorem analysis_reads_three_items (w : env) (price_data : value)
    (news : list value) :
  build_prompt w price_data (VList news)
  = build_prompt w price_data (VList (take 3 news))
  ∧ get_ai_analysis w price_data (VList news)
    = get_ai_analysis w price_data (VList (take 3 news)).
Proof.
  assert (H : build_prompt w price_data (VList news)
              = build_prompt w price_data (VList (take 3 news))).
  { unfold build_prompt. simpl slice_to. now rewrite take_take. }
  split; [exact H|].
  unfold get_ai_analysis, request_analysis. now rewrite H.
Qed.

(** With prices of the data model the branch of line 98 ends as its news
    section does: the three cards and the analysis raise nothing. *)
Lemma render_outcome (w : env) (prices news : value) :
  well_formed_quotes prices →
  outcome (render w prices news) = outcome (news_section w news).
Proof.
  intros (d & btc & eth & -> & Hbtc & Wbtc & Heth & Weth).
  unfold render.
  destruct (price_card_well_formed w d "bitcoin" "Bitcoin (BTC)" btc Hbtc Wbtc) as [c1 H1].
  destruct (price_card_well_formed w d "ethereum" "Ethereum (ETH)" eth Heth Weth) as [c2 H2].
  destruct (get_ai_analysis_returns w (VDict d) news) as [s Hs].
  assert (Havg : avg_change (VFloat c1) (VFloat c2) = Ok ((c1 + c2) / 2)%float)
    by reflexivity.
  repeat first
    [ rewrite outcome_bind, outcome_show; cbv beta iota
    | rewrite outcome_bind, outcome_eval; cbv beta iota
    | rewrite outcome_bind, H1; cbv beta iota
    | rewrite outcome_bind, H2; cbv beta iota
    | rewrite outcome_bind, Hs; cbv beta iota
    | rewrite Havg; cbv beta iota
    | progress change (format plain_2f (VFloat ?f))
        with (Ok (A:=string) (E:=exn) (format_float plain_2f f));
      cbv beta iota ].
  reflexivity.
Qed.

Lemma news_section_good (w : env) (items : list value)
    (fields : list (value * value * value)) :
  Forall2 (fun item f => post_fields item = Ok f) items fields →
  outcome (news_section w (VList items)) = Ok tt.
Proof.
  intros Hall. unfold news_section.
  destruct items as [|item items]; [reflexivity|].
  change (truthy (VList (item :: items))) with true. cbv iota.
  change (items0 ← eval (iterate (VList (item :: items)));
          for_each items0 (news_item w))
    with (let '(t', r) := for_each (item :: items) (news_item w) in
          (([] ++ t')%list, r)).
  rewrite <- (app_nil_r (item :: items)), (for_each_good w _ fields [] Hall).
  reflexivity.
Qed.

(** X7. When the price fetch returned quotes of the data model and the
    news fetch a list of posts that have their fields, the run completes
    whatever the text generator does: raise, answer without a text block,
    answer anything. *)
Theorem run_completes_whatever_generator (w : env)
    (generator : string → create_params → exc message)
    (prices : value) (items : list value) (fields : list (value * value * value)) :
  outcome (get_crypto_prices w) = Ok prices →
  well_formed_quotes prices →
  outcome (get_crypto_news w) = Ok (VList items) →
  Forall2 (fun item f => post_fields item = Ok f) items fields →
  outcome (main (with_generator w generator)) = Ok tt.
Proof.
  intros Hp Wp Hn Hitems.
  set (w' := with_generator w generator).
  assert (Hp' : get_crypto_prices w' = (trace (get_crypto_prices w), Ok prices)).
  { change (get_crypto_prices w') with (get_crypto_prices w).
    destruct (get_crypto_prices w); simpl in *. now subst. }
  assert (Hn' : get_crypto_news w' = (trace (get_crypto_news w), Ok (VList items))).
  { change (get_crypto_news w') with (get_crypto_news w).
    destruct (get_crypto_news w); simpl in *. now subst. }
  rewrite (main_unfold w' _ _ _ _ Hp' Hn'). simpl outcome.
  unfold present.
  destruct Wp as (d & btc & eth & -> & Hbtc & Wbtc & Heth & Weth).
  rewrite (truthy_dict d _ _ Hbtc), outcome_bind.
  rewrite render_outcome by (exists d, btc, eth; auto).
  now rewrite (news_section_good w' items fields Hitems).
Qed.

Lemma run_completes_whatever_generator_witness :
  outcome (main (with_generator steady
                   (fun _ _ => raise APIError "overloaded"))) = Ok tt.
Proof.
  apply (run_completes_whatever_generator steady _ quotes (take 5 six_posts)
           ((fun t => (VStr t, VStr "CoinDesk", VStr "2025-01-01T00:00:00Z"))
              <$> ["a"; "b"; "c"; "d"; "e"])).
  - reflexivity.
  - exists {[ "bitcoin" := quote (VFloat 67000.5) (VFloat 2.5);
              "ethereum" := quote (VInt 3500) (VFloat (-0.25)) ]},
      (quote (VFloat 67000.5) (VFloat 2.5)), (quote (VInt 3500) (VFloat (-0.25))).
    split; [reflexivity|].
    split; [vm_compute; reflexivity|].
    split.
    { exists {[ "usd" := VFloat 67000.5; "usd_24h_change" := VFloat 2.5 ]},
        (VFloat 67000.5), 2.5%float.
      repeat split; vm_compute; reflexivity. }
    split; [vm_compute; reflexivity|].
    exists {[ "usd" := VInt 3500; "usd_24h_change" := VFloat (-0.25) ]},
      (VInt 3500), (-0.25)%float.
    repeat split; vm_compute; reflexivity.
  - reflexivity.
  - repeat constructor.
Defined.

End RobustFacts.

(** ** Further facts: the whole page *)

Module PageFacts.
Import Py St App Spec Examples Outside Page Cache.
Import FetchFacts AnalysisFacts RunFacts OutsideFacts.

Lemma page_externals_app (t t' : list page_event) :
  page_externals (t ++ t') = (page_externals t ++ page_externals t')%list.
Proof. unfold page_externals. now rewrite omap_app, externals_app. Qed.

Lemma page_externals_head (s : session) : page_externals (page_head s) = [].
Proof. reflexivity. Qed.

Lemma page_externals_body (t : list event) :
  page_externals (Body <$> t) = externals t.
Proof.
  unfold page_externals. f_equal.
  induction t as [|ev t IH]; [reflexivity|].
  simpl. now f_equal.
Qed.

Lemma externals_stop (s : session) :
  page_externals ((page_head s ++ [keys_error])%list, Stopped).1 = [].
Proof. reflexivity. Qed.

(** With nothing in the cache, the page is the script itself. *)
Lemma page_cold (s : session) : page cold s = app s.
Proof. reflexivity. Qed.

(** X8. A run of the whole script reaches a provider only when Update Now
    was not clicked and all three secrets are there: a click ends the run
    in a rerun, a missing secret in a stop, both before any request.
    Otherwise the price request, made unless the cache holds a live result
    of the price fetch, carries the CoinGecko secret in its header and no
    other secret; the news request, made unless the cache holds a live
    result of the news fetch, carries the CryptoPanic secret in its URL and
    no other; and the text generator is called, at most once, with the
    Anthropic secret, the model claude-sonnet-4-20250514, at most 500
    tokens and one user message. *)
Theorem app_reaches_providers (c : cache) (s : session) :
  match update_clicked s,
        secrets s !! "COINGECKO_API_KEY",
        secrets s !! "CRYPTOPANIC_API_KEY",
        secrets s !! "ANTHROPIC_API_KEY" with
  | false, Some coingecko, Some cryptopanic, Some anthropic =>
      ∃ tail : list event,
        page_externals (page c s).1
        = (match live_prices c with
           | Some _ => []
           | None =>
               [HttpGet
                  {| url := "https://api.coingecko.com/api/v3/simple/price";
                     params := [("ids", "bitcoin,ethereum"); ("vs_currencies", "usd");
                                ("include_24hr_change", "true")];
                     headers := [("x-cg-demo-api-key", coingecko)] |}]
           end
           ++ match live_news c with
              | Some _ => []
              | None =>
                  [HttpGet
                     {| url := "https://cryptopanic.com/api/v1/posts/?auth_token="
                               ++ cryptopanic ++ "&public=true";
                        params := [];
                        headers := [] |}]
              end
           ++ tail)%list
        ∧ (tail = []
           ∨ ∃ prompt : string,
               tail = [MessagesCreate anthropic
                         {| model := "claude-sonnet-4-20250514";
                            max_tokens := 500;
                            messages := [("user", prompt)] |}])
  | clicked, _, _, _ =>
      page_externals (page c s).1 = []
      ∧ (page c s).2 = (if clicked then Rerun else Stopped)
  end.
Proof.
  unfold page, load_keys. destruct (update_clicked s).
  { destruct (secrets s !! "COINGECKO_API_KEY"), (secrets s !! "CRYPTOPANIC_API_KEY"),
      (secrets s !! "ANTHROPIC_API_KEY"); split; reflexivity. }
  destruct (secrets s !! "COINGECKO_API_KEY") as [coingecko|];
    [|split; [apply externals_stop|reflexivity]].
  destruct (secrets s !! "CRYPTOPANIC_API_KEY") as [cryptopanic|];
    [|split; [apply externals_stop|reflexivity]].
  destruct (secrets s !! "ANTHROPIC_API_KEY") as [anthropic|];
    [|split; [apply externals_stop|reflexivity]].
  change (Some coingecko ≫= _) with (Some (coingecko, cryptopanic, anthropic)).
  cbv iota.
  destruct (run_reaches c (env_of s (coingecko, cryptopanic, anthropic)))
    as (tail & Hrun & Htail).
  exists tail. split; [|exact Htail].
  destruct (run c _) as [t r]. unfold trace in Hrun. cbn [fst snd] in *.
  rewrite page_externals_app, page_externals_head, page_externals_body.
  exact Hrun.
Qed.

End PageFacts.

(** ** Further facts: what the fetches hand to the run *)

Module HandoverFacts.
Import Py St App Spec Examples Outside.
Import FetchFacts AnalysisFacts RunFacts.

(** X9. The news fetch returns a list or a string of at most five, never
    None, a number or a dict: a results field of another type raises inside
    the fetch and becomes the empty list.  So the loop of line 147 and the
    slice of line 74 never fail on the news value itself. *)
Theorem news_is_a_sequence (w : env) :
  ∃ (v : value) (items : list value),
    outcome (get_crypto_news w) = Ok v
    ∧ ((∃ l : list value, v = VList l ∧ (length l ≤ 5)%nat)
       ∨ (∃ s : string, v = VStr s ∧ (String.length s ≤ 5)%nat))
    ∧ iterate v = Ok items.
Proof.
  rewrite get_crypto_news_eq, fetch_news_eq. simpl outcome.
  assert (Hempty : ∃ (v : value) (items : list value),
             Ok (E:=exn) (VList []) = Ok v
             ∧ ((∃ l : list value, v = VList l ∧ (length l ≤ 5)%nat)
                ∨ (∃ s : string, v = VStr s ∧ (String.length s ≤ 5)%nat))
             ∧ iterate v = Ok items).
  { exists (VList []), []. split; [reflexivity|]. split; [|reflexivity].
    left. exists []. split; [reflexivity|simpl; lia]. }
  destruct (requests_get w (news_request w)) as [r|e]; simpl; [|exact Hempty].
  unfold top_five.
  destruct (json r) as [data|e]; simpl; [|exact Hempty].
  destruct (dict_get data "results" (VList [])) as [results|e]; simpl;
    [|exact Hempty].
  destruct results as [| | | |s|l|d]; simpl; try exact Hempty.
  - eexists _, _. split; [reflexivity|]. split; [|reflexivity].
    right. eexists. split; [reflexivity|]. apply length_substring.
  - eexists _, _. split; [reflexivity|]. split; [|reflexivity].
    left. eexists. split; [reflexivity|]. rewrite length_take. lia.
Qed.

(** X10. When the price fetch returns a truthy value of which line 103
    cannot read the bitcoin change (a mapping without bitcoin, a quote
    without the field, a list, a number), the run ends there with the
    exception of that lookup, uncaught: after what the two fetches did the
    page has the column layout and nothing more, no card, no analysis, no
    footer. *)
Theorem run_raises_at_first_card (w : env) (tp tn : list event)
    (prices news : value) (e : exn) :
  get_crypto_prices w = (tp, Ok prices) →
  get_crypto_news w = (tn, Ok news) →
  truthy prices = true →
  (quote ← subscript prices "bitcoin"; subscript quote "usd_24h_change") = Error e →
  main w
  = ((Show (st_spinner "Fetching latest data...") :: tp ++ tn
      ++ [Show (st_columns 4)])%list, Error e).
Proof.
  intros Hp Hn Htruthy Hlookup.
  rewrite (main_unfold w tp tn prices news Hp Hn).
  unfold present, render, price_card. rewrite Htruthy, Hlookup. reflexivity.
Qed.

Lemma run_raises_at_first_card_witness :
  main rejected_key
  = ((Show (st_spinner "Fetching latest data...")
      :: [HttpGet (prices_request rejected_key)]
      ++ [HttpGet (news_request rejected_key)]
      ++ [Show (st_columns 4)])%list, raise KeyError "'bitcoin'").
Proof.
  apply (run_raises_at_first_card rejected_key _ _
           (VDict {[ "status" := VDict {[ "error_code" := VInt 10002;
                                           "error_message" := VStr "API Key Missing" ]} ]})
           (VList (take 5 six_posts)));
    vm_compute; reflexivity.
Defined.

Lemma fetch_prices_status (w : env) (status : http_request → Z) :
  fetch_prices (with_status w status) = fetch_prices w.
Proof.
  rewrite !fetch_prices_eq.
  change (prices_request (with_status w status)) with (prices_request w).
  change (requests_get (with_status w status) (prices_request w))
    with ((fun answer => Response (status (prices_request w)) (json answer))
            <$> requests_get w (prices_request w)).
  destruct (requests_get w (prices_request w)); reflexivity.
Qed.

Lemma fetch_news_status (w : env) (status : http_request → Z) :
  fetch_news (with_status w status) = fetch_news w.
Proof.
  rewrite !fetch_news_eq.
  change (news_request (with_status w status)) with (news_request w).
  change (requests_get (with_status w status) (news_request w))
    with ((fun answer => Response (status (news_request w)) (json answer))
            <$> requests_get w (news_request w)).
  destruct (requests_get w (news_request w)); reflexivity.
Qed.

(** X11. A run never looks at the status code of a response: with the same
    bodies under any other status codes (200 or 401 or 500) it makes the
    same requests, shows the same page and ends the same way. *)
Theorem run_ignores_status (w : env) (status : http_request → Z) :
  main (with_status w status) = main w.
Proof.
  unfold main, get_crypto_prices, get_crypto_news.
  rewrite fetch_prices_status, fetch_news_status. reflexivity.
Qed.

End HandoverFacts.
